(** * LightBnB query service (server/database.js)

    A shallow embedding of the data-access layer: JavaScript values and
    their truthiness, the SQL text and positional parameters built by
    [getAllProperties], the promise chains of every exported operation
    over an abstract connection pool, and a model of the PostgreSQL
    server for the statements this program sends: the users, properties
    and reviews tables, and beside them the reservations table. *)

From Stdlib Require Import String Ascii List ZArith QArith Bool Lia.
From Stdlib Require Import Sorted Permutation DecimalString DecimalPos DecimalZ.
Import ListNotations.
Open Scope string_scope.

(** ** JavaScript values *)

Module Js.

(** The primitive values that the options objects and arguments carry.
    Numbers are the integral ones ([JNum]) and NaN. *)
Inductive jsval :=
| JUndef
| JNull
| JBool (b : bool)
| JNum (z : Z)
| JNaN
| JStr (s : string).

(** [if (v)]: undefined, null, false, 0, NaN and "" are falsy. *)
Definition truthy (v : jsval) : bool :=
  match v with
  | JUndef | JNull | JNaN => false
  | JBool b => b
  | JNum z => negb (Z.eqb z 0)
  | JStr s => negb (String.eqb s "")
  end.

(** Decimal rendering of an integer, as [String(n)] prints it for a safe
    integer ([|n| <= 2^53 - 1]); the theorems that send a number to the
    server take it in that range. *)
Definition Z_to_string (z : Z) : string :=
  NilZero.string_of_int (Z.to_int z).

Definition safe_integer (z : Z) : bool := (Z.abs z <=? 9007199254740991)%Z.

Definition nat_to_string (n : nat) : string :=
  NilZero.string_of_uint (Nat.to_uint n).

(** Template-literal interpolation [`${v}`]. *)
Definition to_string (v : jsval) : string :=
  match v with
  | JUndef => "undefined"
  | JNull => "null"
  | JBool true => "true"
  | JBool false => "false"
  | JNum z => Z_to_string z
  | JNaN => "NaN"
  | JStr s => s
  end.

End Js.

Import Js.

(** ** Building the statement of [getAllProperties] *)

Module Build.

(** The [options] object; a key that is absent reads as [JUndef]. *)
Record options := {
  owner_id : jsval;
  city : jsval;
  minimum_price_per_night : jsval;
  maximum_price_per_night : jsval;
  minimum_rating : jsval
}.

Definition no_options : options :=
  {| owner_id := JUndef; city := JUndef; minimum_price_per_night := JUndef;
     maximum_price_per_night := JUndef; minimum_rating := JUndef |}.

Definition select_head : string := "
  SELECT properties.*, AVG(property_reviews.rating) AS average_rating
  FROM properties
    JOIN property_reviews ON properties.id = property_id
  ".

(** [getAllProperties (options, limit = 10)] up to the call of
    [pool.query]: the pair [(queryString, queryParams)].  Each [if]
    block pushes onto [queryParams] first and then appends text that
    names the placeholder [$queryParams.length]. *)
Definition getAllProperties_build (options : options) (limit : jsval)
  : string * list jsval :=
  let limit := match limit with JUndef => JNum 10 | l => l end in
  let queryParams : list jsval := [] in
  let whereAnd := "WHERE" in
  let queryString := select_head in
  let '(queryParams, queryString) :=
    if truthy (owner_id options) then
      let queryParams := (queryParams ++ [JStr (to_string (owner_id options))])%list in
      (queryParams, queryString ++ whereAnd ++ " owner_id = $"
                      ++ nat_to_string (length queryParams) ++ " ")
    else (queryParams, queryString) in
  let '(queryParams, queryString, whereAnd) :=
    if truthy (city options) then
      let queryParams :=
        (queryParams ++ [JStr ("%" ++ to_string (city options) ++ "%")])%list in
      (queryParams, queryString ++ whereAnd ++ " city LIKE $"
                      ++ nat_to_string (length queryParams) ++ " ", "AND")
    else (queryParams, queryString, whereAnd) in
  let '(queryParams, queryString, whereAnd) :=
    if truthy (minimum_price_per_night options) then
      let queryParams :=
        (queryParams ++ [JStr (to_string (minimum_price_per_night options))])%list in
      (queryParams, queryString ++ "
    " ++ whereAnd ++ " cost_per_night / 100 > $"
          ++ nat_to_string (length queryParams) ++ "
    ", "AND")
    else (queryParams, queryString, whereAnd) in
  let '(queryParams, queryString) :=
    if truthy (maximum_price_per_night options) then
      let queryParams :=
        (queryParams ++ [JStr (to_string (maximum_price_per_night options))])%list in
      (queryParams, queryString ++ "
    " ++ whereAnd ++ " cost_per_night / 100 < $"
          ++ nat_to_string (length queryParams) ++ "
    ")
    else (queryParams, queryString) in
  let queryString := queryString ++ "GROUP BY properties.id " in
  let '(queryParams, queryString) :=
    if truthy (minimum_rating options) then
      let queryParams :=
        (queryParams ++ [JStr (to_string (minimum_rating options))])%list in
      (queryParams, queryString ++ "
    HAVING AVG(property_reviews.rating) >= $"
          ++ nat_to_string (length queryParams) ++ " ")
    else (queryParams, queryString) in
  let queryParams := (queryParams ++ [limit])%list in
  let queryString := queryString ++ "
  ORDER BY cost_per_night
  LIMIT $" ++ nat_to_string (length queryParams) ++ ";
  " in
  (queryString, queryParams).

(** ** Reading the SQL text as whitespace-separated words *)

Definition is_space (c : ascii) : bool :=
  let n := nat_of_ascii c in
  (Nat.eqb n 32 || Nat.eqb n 10 || Nat.eqb n 9 || Nat.eqb n 13)%nat.

Fixpoint words (l : list ascii) (cur : list ascii) : list string :=
  match l with
  | [] => match cur with [] => [] | _ => [string_of_list_ascii cur] end
  | c :: l' =>
      if is_space c then
        match cur with
        | [] => words l' []
        | _ => string_of_list_ascii cur :: words l' []
        end
      else words l' (cur ++ [c])%list
  end.

Definition tokens (s : string) : list string := words (list_ascii_of_string s) [].

Definition count_word (w : string) (ts : list string) : nat :=
  length (filter (String.eqb w) ts).

End Build.

(** ** Rows returned by the database *)

Module Rows.

Record user := {
  user_id : Z;
  user_name : string;
  user_email : string;
  user_password : string
}.

(** A row of [properties]; the columns no query of this program reads
    are carried by [prop_title] only. *)
Record property := {
  prop_id : Z;
  prop_owner_id : Z;
  prop_title : string;
  prop_cost_per_night : Z;
  prop_city : string
}.

Record review := {
  review_property_id : Z;
  review_rating : Z
}.

(** A row of [reservations]; dates are day numbers. *)
Record reservation := {
  resv_id : Z;
  resv_guest_id : Z;
  resv_property_id : Z;
  resv_start_date : Z;
  resv_end_date : Z
}.

(** A result row: a user, a property with its [average_rating], or a
    reservation ([res_id], [start_date], [end_date]) with the columns of
    its property and [average_rating]. *)
Inductive row :=
| RUser (u : user)
| RProp (p : property) (average_rating : Q)
| RResv (r : reservation) (p : property) (average_rating : Q).

(** What [pool.query] settles to: the rows, or an error message. *)
Inductive qresult :=
| QOk (rows : list row)
| QErr (message : string).

End Rows.

Import Rows.

(** ** Promises with a console *)

Module Promise.

(** A settled promise. *)
Inductive settled (A : Type) :=
| Resolved (a : A)
| Rejected (message : string).
Arguments Resolved {A} a.
Arguments Rejected {A} message.

(** The values the operations resolve to. *)
Inductive out :=
| OUndef
| ONull
| ORow (r : row)
| ORows (rs : list row).

Section Monad.
Variable S : Type.

(** A computation reads and updates the pool state [S], writes console
    lines and settles. *)
Definition M (A : Type) : Type := S -> S * list string * settled A.

Definition ret {A} (a : A) : M A := fun s => (s, [], Resolved a).

(** [throw new Error(m)] inside a callback. *)
Definition throw {A} (m : string) : M A := fun s => (s, [], Rejected m).

Definition console_log (m : string) : M unit := fun s => (s, [m], Resolved tt).

(** [p.then(f)] *)
Definition then_ {A B} (p : M A) (f : A -> M B) : M B :=
  fun s =>
    match p s with
    | (s1, l1, Resolved a) =>
        let '(s2, l2, r) := f a s1 in (s2, (l1 ++ l2)%list, r)
    | (s1, l1, Rejected e) => (s1, l1, Rejected e)
    end.

(** [p.catch(h)], where [h] receives [err.message] *)
Definition catch_ {A} (p : M A) (h : string -> M A) : M A :=
  fun s =>
    match p s with
    | (s1, l1, Rejected e) =>
        let '(s2, l2, r) := h e s1 in (s2, (l1 ++ l2)%list, r)
    | r => r
    end.

End Monad.

Arguments ret {S A} a.
Arguments throw {S A} m.
Arguments console_log {S} m.
Arguments then_ {S A B} p f.
Arguments catch_ {S A} p h.

End Promise.

Import Promise.

(** ** The exported operations *)

Module Ops.
Import Build.

(** [user] argument of [addUser]. *)
Record new_user := {
  name : jsval;
  password : jsval;
  email : jsval
}.

Definition getUserWithEmail_sql : string := "
  SELECT id,
    name,
    email,
    password
  FROM users
  WHERE email = $1;
  ".

Definition getUserWithId_sql : string := "
  SELECT id,
    name,
    email,
    password
  FROM users
  WHERE id = $1;
  ".

Definition addUser_sql : string := "
  INSERT INTO users(name, password, email)
  VALUES($1, $2, $3)
  RETURNING *;
  ".

Definition getAllReservations_sql : string := "
  SELECT reservations.id AS res_id,
    properties.*,
    reservations.start_date,
    reservations.end_date,
    AVG(rating) AS average_rating
  FROM reservations
    JOIN properties ON reservations.property_id = properties.id
    JOIN property_reviews ON properties.id = property_reviews.property_id
  WHERE reservations.guest_id = $1
  GROUP BY properties.id,
    reservations.id
  ORDER BY reservations.start_date
  LIMIT $2;
  ".

Definition propertyValues : list string :=
  ["owner_id"; "title"; "description"; "thumbnail_photo_url"; "cover_photo_url";
   "cost_per_night"; "street"; "city"; "province"; "post_code"; "country";
   "parking_spaces"; "number_of_bathrooms"; "number_of_bedrooms"].

Fixpoint join (sep : string) (l : list string) : string :=
  match l with
  | [] => ""
  | [x] => x
  | x :: l' => x ++ sep ++ join sep l'
  end.

Definition addProperty_sql : string := "
  INSERT INTO properties(" ++ join ", " propertyValues ++ ")
  VALUES($1, $2, $3, $4, $5, $6, $7, $8, $9, $10, $11, $12, $13, $14)
  RETURNING *;
  ".

Section WithPool.
(** The pool: its state and the effect of one [pool.query] call. *)
Variable S : Type.
Variable query : string -> list jsval -> S -> S * qresult.

Definition pool_query (q : string) (ps : list jsval) : M S (list row) :=
  fun s =>
    match query q ps s with
    | (s', QOk rows) => (s', [], Resolved rows)
    | (s', QErr m) => (s', [], Rejected m)
    end.

(** [res.rows[0]] *)
Definition first_row (rows : list row) : out :=
  match rows with r :: _ => ORow r | [] => OUndef end.

(** The handler [(err) => { console.log(err.message); return null; }] *)
Definition log_null (m : string) : M S out :=
  then_ (console_log m) (fun _ => ret ONull).

Definition getUserWithEmail (email : jsval) : M S out :=
  catch_
    (then_ (pool_query getUserWithEmail_sql [email])
       (fun rows =>
          match rows with
          | r :: _ => ret (ORow r)
          | [] => throw "Invalid email address"
          end))
    log_null.

Definition getUserWithId (id : jsval) : M S out :=
  catch_
    (then_ (pool_query getUserWithId_sql [id])
       (fun rows =>
          match rows with
          | r :: _ => ret (ORow r)
          | [] => throw "Invalid user id"
          end))
    log_null.

Definition addUser (user : new_user) : M S out :=
  let values := [name user; password user; email user] in
  catch_ (then_ (pool_query addUser_sql values) (fun rows => ret (first_row rows)))
    log_null.

Definition getAllReservations (guest_id : jsval) (limit : jsval) : M S out :=
  let limit := match limit with JUndef => JNum 10 | l => l end in
  let values := [guest_id; limit] in
  catch_ (then_ (pool_query getAllReservations_sql values) (fun rows => ret (ORows rows)))
    log_null.

(** The handler of [getAllProperties] logs and returns nothing. *)
Definition getAllProperties (options : options) (limit : jsval) : M S out :=
  let '(queryString, queryParams) := getAllProperties_build options limit in
  catch_
    (then_ (pool_query queryString queryParams) (fun rows => ret (ORows rows)))
    (fun m => then_ (console_log m) (fun _ => ret OUndef)).

(** [property[value]] for each name of [propertyValues]. *)
Definition addProperty (property : string -> jsval) : M S out :=
  let values := map property propertyValues in
  catch_ (then_ (pool_query addProperty_sql values) (fun rows => ret (first_row rows)))
    log_null.

End WithPool.

End Ops.

(** ** A model of the PostgreSQL server behind the pool

    The server receives the SQL text and the parameter values.  It
    recognises the statements that this program sends by their words;
    any other text is a syntax error.  Parameters travel as text (or
    NULL) and are converted to the type their position asks for. *)

Module Pg.
Import Build.

Inductive res (A : Type) :=
| Ok (a : A)
| Err (message : string).
Arguments Ok {A} a.
Arguments Err {A} message.

(** How the driver sends a JavaScript value: [None] is SQL NULL. *)
Definition pg_param (v : jsval) : option string :=
  match v with
  | JUndef | JNull => None
  | JBool true => Some "true"
  | JBool false => Some "false"
  | JNum z => Some (Z_to_string z)
  | JNaN => Some "NaN"
  | JStr s => Some s
  end.

(** Text to an integer: an optional sign and digits.  The range of the
    target type is checked by [as_int_type]. *)
Definition pg_int (s : string) : option Z :=
  option_map Z.of_int (NilZero.int_of_string s).

Fixpoint pow10 (k : nat) : positive :=
  match k with O => 1%positive | S k' => (10 * pow10 k')%positive end.

Definition digit_value (c : ascii) : option Z :=
  let n := nat_of_ascii c in
  if (48 <=? n)%nat && (n <=? 57)%nat then Some (Z.of_nat (n - 48)) else None.

(** Digits with at most one decimal point: numerator and number of
    fractional digits. *)
Fixpoint numeric_digits (l : list ascii) (acc : Z) (frac : option nat) (seen : bool)
  : option (Z * nat) :=
  match l with
  | [] => if seen then Some (acc, match frac with None => O | Some k => k end) else None
  | c :: l' =>
      match digit_value c with
      | Some d => numeric_digits l' (acc * 10 + d)%Z (option_map S frac) true
      | None =>
          match frac with
          | None => if Ascii.eqb c "." then numeric_digits l' acc (Some O) seen else None
          | Some _ => None
          end
      end
  end.

(** Text to [numeric]. *)
Definition pg_numeric (s : string) : option Q :=
  match list_ascii_of_string s with
  | c :: l =>
      if Ascii.eqb c "-" then
        option_map (fun '(n, k) => Qmake (- n) (pow10 k)) (numeric_digits l 0 None false)
      else option_map (fun '(n, k) => Qmake n (pow10 k)) (numeric_digits (c :: l) 0 None false)
  | [] => None
  end.

(** [subject LIKE pattern]: [%] matches any sequence, [_] one
    character, a backslash makes the next character literal; matching
    is case-sensitive.  (A pattern ending in a lone backslash is an
    error for PostgreSQL; here it matches nothing.) *)
Fixpoint like (p s : list ascii) : bool :=
  match p with
  | [] => match s with [] => true | _ => false end
  | c :: p' =>
      if Ascii.eqb c "%" then
        (fix star (s : list ascii) : bool :=
           like p' s || match s with [] => false | _ :: s' => star s' end) s
      else if Ascii.eqb c "_" then
        match s with [] => false | _ :: s' => like p' s' end
      else if Ascii.eqb c "\" then
        match p' with
        | [] => false
        | e :: p'' =>
            match s with x :: s' => Ascii.eqb e x && like p'' s' | [] => false end
        end
      else
        match s with x :: s' => Ascii.eqb c x && like p' s' | [] => false end
  end.

Definition like_str (pattern subject : string) : bool :=
  like (list_ascii_of_string pattern) (list_ascii_of_string subject).

(** *** The statement of [getAllProperties] *)

Inductive cond :=
| CondOwner (k : nat)
| CondCity (k : nat)
| CondMin (k : nat)
| CondMax (k : nat).

Record props_query := {
  pq_conds : list cond;
  pq_having : option nat;
  pq_limit : nat
}.

Fixpoint expect (ws ts : list string) : option (list string) :=
  match ws, ts with
  | [], _ => Some ts
  | w :: ws', t :: ts' => if String.eqb w t then expect ws' ts' else None
  | _ :: _, [] => None
  end.

(** A placeholder [$k]. *)
Definition parse_ph (t : string) : option nat :=
  match t with
  | String c rest =>
      if Ascii.eqb c "$" then option_map Nat.of_uint (NilZero.uint_of_string rest)
      else None
  | EmptyString => None
  end.

(** A word ending with the statement terminator [;]. *)
Definition strip_semi (t : string) : option string :=
  match rev (list_ascii_of_string t) with
  | c :: l => if Ascii.eqb c ";" then Some (string_of_list_ascii (rev l)) else None
  | [] => None
  end.

Definition parse_cond (ts : list string) : option (cond * list string) :=
  let after (ws : list string) (mk : nat -> cond) :=
    match expect ws ts with
    | Some (p :: r) => option_map (fun k => (mk k, r)) (parse_ph p)
    | _ => None
    end in
  match after ["owner_id"; "="] CondOwner with
  | Some x => Some x
  | None =>
  match after ["city"; "LIKE"] CondCity with
  | Some x => Some x
  | None =>
  match after ["cost_per_night"; "/"; "100"; ">"] CondMin with
  | Some x => Some x
  | None => after ["cost_per_night"; "/"; "100"; "<"] CondMax
  end end end.

(** [AND c] repeated; each round consumes words, [fuel] bounds them. *)
Fixpoint parse_ands (fuel : nat) (ts : list string) : option (list cond * list string) :=
  match fuel with
  | O => Some ([], ts)
  | S f =>
      match ts with
      | t :: r =>
          if String.eqb t "AND" then
            match parse_cond r with
            | Some (c, r') =>
                match parse_ands f r' with
                | Some (cs, r'') => Some (c :: cs, r'')
                | None => None
                end
            | None => None
            end
          else Some ([], ts)
      | [] => Some ([], ts)
      end
  end.

(** An optional [WHERE c (AND c)*]. *)
Definition parse_where (ts : list string) : option (list cond * list string) :=
  match ts with
  | t :: r =>
      if String.eqb t "WHERE" then
        match parse_cond r with
        | Some (c, r') =>
            match parse_ands (length r') r' with
            | Some (cs, r'') => Some (c :: cs, r'')
            | None => None
            end
        | None => None
        end
      else Some ([], ts)
  | [] => Some ([], ts)
  end.

Definition props_head : list string :=
  ["SELECT"; "properties.*,"; "AVG(property_reviews.rating)"; "AS"; "average_rating";
   "FROM"; "properties"; "JOIN"; "property_reviews"; "ON"; "properties.id"; "=";
   "property_id"].

Definition parse_props (ts : list string) : option props_query :=
  match expect props_head ts with
  | None => None
  | Some r1 =>
  match parse_where r1 with
  | None => None
  | Some (conds, r2) =>
  match expect ["GROUP"; "BY"; "properties.id"] r2 with
  | None => None
  | Some r3 =>
  let hav :=
    match expect ["HAVING"; "AVG(property_reviews.rating)"; ">="] r3 with
    | Some (p :: r) =>
        match parse_ph p with Some k => Some (Some k, r) | None => None end
    | _ => Some (None, r3)
    end in
  match hav with
  | None => None
  | Some (having, r4) =>
  match expect ["ORDER"; "BY"; "cost_per_night"; "LIMIT"] r4 with
  | Some [p] =>
      match strip_semi p with
      | Some p' =>
          match parse_ph p' with
          | Some k => Some {| pq_conds := conds; pq_having := having; pq_limit := k |}
          | None => None
          end
      | None => None
      end
  | _ => None
  end end end end end.

(** *** Binding the parameters *)

(** A condition with its parameter converted; [None] is NULL. *)
Inductive bcond :=
| BOwner (v : option Z)
| BCity (v : option string)
| BMin (v : option Z)
| BMax (v : option Z).

Record bound_query := {
  bq_conds : list bcond;
  bq_having : option (option Q);
  bq_limit : option nat   (* [None]: LIMIT ALL *)
}.

Definition param (ps : list jsval) (k : nat) : res (option string) :=
  match k with
  | O => Err "there is no parameter $0"
  | S i =>
      match nth_error ps i with
      | Some v => Ok (pg_param v)
      | None => Err ("there is no parameter $" ++ nat_to_string k)
      end
  end.

(** The double quote character, which the server's messages put around
    the offending text. *)
Definition dquote : string := String (ascii_of_nat 34) EmptyString.

(** Text to an integer type [ty] whose values are [lo <= z < hi]. *)
Definition as_int_type (ty : string) (lo hi : Z) (v : res (option string)) : res (option Z) :=
  match v with
  | Err m => Err m
  | Ok None => Ok None
  | Ok (Some s) =>
      match pg_int s with
      | Some z =>
          if ((lo <=? z) && (z <? hi))%Z then Ok (Some z)
          else Err ("value " ++ dquote ++ s ++ dquote ++ " is out of range for type " ++ ty)
      | None => Err ("invalid input syntax for type " ++ ty ++ ": " ++ dquote ++ s ++ dquote)
      end
  end.

(** [integer]: 32 bits. *)
Definition as_int : res (option string) -> res (option Z) :=
  as_int_type "integer" (-2147483648) 2147483648.

(** [bigint]: 64 bits. *)
Definition as_bigint : res (option string) -> res (option Z) :=
  as_int_type "bigint" (-9223372036854775808) 9223372036854775808.

Definition as_numeric (v : res (option string)) : res (option Q) :=
  match v with
  | Err m => Err m
  | Ok None => Ok None
  | Ok (Some s) =>
      match pg_numeric s with
      | Some q => Ok (Some q)
      | None => Err ("invalid input syntax for type numeric: " ++ dquote ++ s ++ dquote)
      end
  end.

Definition res_map {A B} (f : A -> B) (r : res A) : res B :=
  match r with Ok a => Ok (f a) | Err m => Err m end.

Definition bind_cond (ps : list jsval) (c : cond) : res bcond :=
  match c with
  | CondOwner k => res_map BOwner (as_int (param ps k))
  | CondCity k => res_map BCity (param ps k)
  | CondMin k => res_map BMin (as_int (param ps k))
  | CondMax k => res_map BMax (as_int (param ps k))
  end.

Fixpoint bind_conds (ps : list jsval) (cs : list cond) : res (list bcond) :=
  match cs with
  | [] => Ok []
  | c :: cs' =>
      match bind_cond ps c with
      | Err m => Err m
      | Ok b =>
          match bind_conds ps cs' with
          | Err m => Err m
          | Ok bs => Ok (b :: bs)
          end
      end
  end.

(** [LIMIT $k]: the parameter is a [bigint]. *)
Definition bind_limit (ps : list jsval) (k : nat) : res (option nat) :=
  match as_bigint (param ps k) with
  | Err m => Err m
  | Ok None => Ok None
  | Ok (Some z) =>
      if (z <? 0)%Z then Err "LIMIT must not be negative" else Ok (Some (Z.to_nat z))
  end.

Definition cond_index (c : cond) : nat :=
  match c with CondOwner k | CondCity k | CondMin k | CondMax k => k end.

(** The statement has as many parameters as its highest placeholder. *)
Definition max_placeholder (q : props_query) : nat :=
  fold_right Nat.max (Nat.max (pq_limit q) (match pq_having q with Some k => k | None => O end))
    (map cond_index (pq_conds q)).

Definition bind_props (ps : list jsval) (q : props_query) : res bound_query :=
  if negb (Nat.eqb (max_placeholder q) (length ps)) then
    Err ("bind message supplies " ++ nat_to_string (length ps)
         ++ " parameters, but prepared statement requires "
         ++ nat_to_string (max_placeholder q))
  else
  match bind_conds ps (pq_conds q) with
  | Err m => Err m
  | Ok bs =>
  match (match pq_having q with
         | None => Ok None
         | Some k => res_map Some (as_numeric (param ps k))
         end) with
  | Err m => Err m
  | Ok h =>
  match bind_limit ps (pq_limit q) with
  | Err m => Err m
  | Ok l => Ok {| bq_conds := bs; bq_having := h; bq_limit := l |}
  end end end.

(** *** Running it *)

Record db := {
  db_users : list user;
  db_next_user_id : Z;
  db_properties : list property;
  db_reviews : list review
}.

(** [WHERE] on a joined row: a comparison with NULL is not true.
    [cost_per_night / 100] is integer division. *)
Definition cond_holds (c : bcond) (p : property) : bool :=
  match c with
  | BOwner (Some z) => Z.eqb (prop_owner_id p) z
  | BCity (Some pat) => like_str pat (prop_city p)
  | BMin (Some m) => (m <? Z.quot (prop_cost_per_night p) 100)%Z
  | BMax (Some m) => (Z.quot (prop_cost_per_night p) 100 <? m)%Z
  | BOwner None | BCity None | BMin None | BMax None => false
  end.

Definition reviews_of (d : db) (p : property) : list review :=
  filter (fun r => Z.eqb (review_property_id r) (prop_id p)) (db_reviews d).

Definition sum_ratings (rs : list review) : Z :=
  fold_right (fun r acc => (review_rating r + acc)%Z) 0%Z rs.

(** [AVG(property_reviews.rating)] over a non-empty group. *)
Definition average (rs : list review) : Q :=
  (inject_Z (sum_ratings rs) / inject_Z (Z.of_nat (length rs)))%Q.

(** [FROM properties JOIN property_reviews ... WHERE ... GROUP BY
    properties.id]: [properties.id] is the primary key, so there is one
    group per property that passes [WHERE] and has a review. *)
Definition groups (d : db) (bs : list bcond) : list (property * Q) :=
  flat_map
    (fun p =>
       if forallb (fun c => cond_holds c p) bs then
         match reviews_of d p with
         | [] => []
         | rs => [(p, average rs)]
         end
       else [])
    (db_properties d).

Definition having_holds (h : option (option Q)) (g : property * Q) : bool :=
  match h with
  | None => true
  | Some None => false
  | Some (Some q) => Qle_bool q (snd g)
  end.

(** [ORDER BY cost_per_night]: ascending; the order of ties is not
    fixed by SQL, this model keeps an insertion sort. *)
Fixpoint insert_by_cost (g : property * Q) (l : list (property * Q)) : list (property * Q) :=
  match l with
  | [] => [g]
  | h :: l' =>
      if (prop_cost_per_night (fst g) <=? prop_cost_per_night (fst h))%Z then g :: l
      else h :: insert_by_cost g l'
  end.

Definition sort_by_cost (l : list (property * Q)) : list (property * Q) :=
  fold_right insert_by_cost [] l.

Definition apply_limit {A} (l : option nat) (xs : list A) : list A :=
  match l with None => xs | Some n => firstn n xs end.

Definition run_props (d : db) (b : bound_query) : list row :=
  map (fun g => RProp (fst g) (snd g))
    (apply_limit (bq_limit b)
       (sort_by_cost (filter (having_holds (bq_having b)) (groups d (bq_conds b))))).

Definition exec_props (d : db) (q : props_query) (ps : list jsval) : qresult :=
  match bind_props ps q with
  | Err m => QErr m
  | Ok b => QOk (run_props d b)
  end.

(** *** The statements on [users] *)

Definition user_by_email_words : list string :=
  ["SELECT"; "id,"; "name,"; "email,"; "password"; "FROM"; "users"; "WHERE";
   "email"; "="; "$1;"].

Definition user_by_id_words : list string :=
  ["SELECT"; "id,"; "name,"; "email,"; "password"; "FROM"; "users"; "WHERE";
   "id"; "="; "$1;"].

Definition insert_user_words : list string :=
  ["INSERT"; "INTO"; "users(name,"; "password,"; "email)"; "VALUES($1,"; "$2,";
   "$3)"; "RETURNING"; "*;"].

Definition wrong_count (n m : nat) : qresult :=
  QErr ("bind message supplies " ++ nat_to_string n
        ++ " parameters, but prepared statement requires " ++ nat_to_string m).

Definition exec_user_by_email (d : db) (ps : list jsval) : qresult :=
  match ps with
  | [v] =>
      match pg_param v with
      | None => QOk []
      | Some s => QOk (map RUser (filter (fun u => String.eqb (user_email u) s) (db_users d)))
      end
  | _ => wrong_count (length ps) 1
  end.

Definition exec_user_by_id (d : db) (ps : list jsval) : qresult :=
  match ps with
  | [v] =>
      match as_int (Ok (pg_param v)) with
      | Err m => QErr m
      | Ok None => QOk []
      | Ok (Some z) => QOk (map RUser (filter (fun u => Z.eqb (user_id u) z) (db_users d)))
      end
  | _ => wrong_count (length ps) 1
  end.

(** [users.email] is unique and every column is NOT NULL; [id] is a
    serial column. *)
Definition exec_insert_user (d : db) (ps : list jsval) : db * qresult :=
  match ps with
  | [n; p; e] =>
      match pg_param n, pg_param p, pg_param e with
      | Some n', Some p', Some e' =>
          if existsb (fun u => String.eqb (user_email u) e') (db_users d) then
            (d, QErr "duplicate key value violates unique constraint users_email_key")
          else
            let u := {| user_id := db_next_user_id d; user_name := n';
                        user_email := e'; user_password := p' |} in
            ({| db_users := (db_users d ++ [u])%list;
                db_next_user_id := (db_next_user_id d + 1)%Z;
                db_properties := db_properties d; db_reviews := db_reviews d |},
             QOk [RUser u])
      | _, _, _ => (d, QErr "null value in column violates not-null constraint")
      end
  | _ => (d, wrong_count (length ps) 3)
  end.

Definition words_eqb (a b : list string) : bool :=
  if list_eq_dec string_dec a b then true else false.

(** One [pool.query] call against the database [d].  The statements of
    [getAllReservations] and [addProperty] are not interpreted by this
    model of the server and are answered with an error. *)
Definition db_run (q : string) (ps : list jsval) (d : db) : db * qresult :=
  let ts := tokens q in
  match parse_props ts with
  | Some pq => (d, exec_props d pq ps)
  | None =>
      if words_eqb ts user_by_email_words then (d, exec_user_by_email d ps)
      else if words_eqb ts user_by_id_words then (d, exec_user_by_id d ps)
      else if words_eqb ts insert_user_words then exec_insert_user d ps
      else (d, QErr "syntax error")
  end.

End Pg.

(** ** Reservations on the server

    The server state with the [reservations] table beside the tables of
    [db].  A statement other than the one of [getAllReservations] is
    answered as [db_run] answers it, on the [db] part. *)

Module Store.
Import Build Ops Pg.

Record store := {
  st_db : db;
  st_reservations : list reservation
}.

Definition reservations_words : list string :=
  ["SELECT"; "reservations.id"; "AS"; "res_id,"; "properties.*,";
   "reservations.start_date,"; "reservations.end_date,"; "AVG(rating)"; "AS";
   "average_rating"; "FROM"; "reservations"; "JOIN"; "properties"; "ON";
   "reservations.property_id"; "="; "properties.id"; "JOIN"; "property_reviews"; "ON";
   "properties.id"; "="; "property_reviews.property_id"; "WHERE";
   "reservations.guest_id"; "="; "$1"; "GROUP"; "BY"; "properties.id,";
   "reservations.id"; "ORDER"; "BY"; "reservations.start_date"; "LIMIT"; "$2;"].

(** [FROM reservations JOIN properties ON reservations.property_id =
    properties.id JOIN property_reviews ON properties.id =
    property_reviews.property_id WHERE reservations.guest_id = $1 GROUP
    BY properties.id, reservations.id]: both ids are primary keys, so
    there is one group per reservation of the guest and property of the
    reservation that has a review; a NULL guest id matches nothing. *)
Definition resv_groups (s : store) (guest : option Z) : list (reservation * property * Q) :=
  match guest with
  | None => []
  | Some g =>
      flat_map
        (fun r =>
           if Z.eqb (resv_guest_id r) g then
             flat_map
               (fun p =>
                  if Z.eqb (resv_property_id r) (prop_id p) then
                    match reviews_of (st_db s) p with
                    | [] => []
                    | rs => [(r, p, average rs)]
                    end
                  else [])
               (db_properties (st_db s))
           else [])
        (st_reservations s)
  end.

Definition resv_start (x : reservation * property * Q) : Z :=
  resv_start_date (fst (fst x)).

(** [ORDER BY reservations.start_date], an insertion sort as for
    [cost_per_night]. *)
Fixpoint insert_by_start (x : reservation * property * Q) (l : list (reservation * property * Q))
  : list (reservation * property * Q) :=
  match l with
  | [] => [x]
  | h :: l' => if (resv_start x <=? resv_start h)%Z then x :: l else h :: insert_by_start x l'
  end.

Definition sort_by_start (l : list (reservation * property * Q)) : list (reservation * property * Q) :=
  fold_right insert_by_start [] l.

Definition resv_row (x : reservation * property * Q) : row :=
  let '(r, p, a) := x in RResv r p a.

(** [$1] is an [integer], [$2] the [bigint] of [LIMIT]. *)
Definition exec_reservations (s : store) (ps : list jsval) : qresult :=
  match ps with
  | [v; _] =>
      match as_int (Ok (pg_param v)) with
      | Err m => QErr m
      | Ok guest =>
          match bind_limit ps 2 with
          | Err m => QErr m
          | Ok l => QOk (map resv_row (apply_limit l (sort_by_start (resv_groups s guest))))
          end
      end
  | _ => wrong_count (length ps) 2
  end.

Definition store_run (q : string) (ps : list jsval) (s : store) : store * qresult :=
  if words_eqb (tokens q) reservations_words then (s, exec_reservations s ps)
  else
    let '(d', r) := db_run q ps (st_db s) in
    ({| st_db := d'; st_reservations := st_reservations s |}, r).

End Store.


(** ** Reading the statements back *)

Module Reading.
Import Build Pg.

(** The number of a placeholder word: [$k], or [$k;] at the end. *)
Definition placeholder_of (t : string) : option nat :=
  match parse_ph t with
  | Some k => Some k
  | None => match strip_semi t with Some t' => parse_ph t' | None => None end
  end.

(** Every placeholder of the text, with the word just before it (the
    comparison it is the right operand of, or [LIMIT]). *)
Fixpoint placeholder_uses (prev : string) (ts : list string) : list (string * nat) :=
  match ts with
  | [] => []
  | t :: r =>
      match placeholder_of t with
      | Some k => (prev, k) :: placeholder_uses t r
      | None => placeholder_uses t r
      end
  end.

(** A [WHERE] that no predicate follows. *)
Fixpoint dangling_where (ts : list string) : bool :=
  match ts with
  | [] => false
  | t :: r =>
      (String.eqb t "WHERE" && match parse_cond r with None => true | Some _ => false end)
      || dangling_where r
  end.

(** The bindings the spec describes for [getAllProperties]: one per
    present filter, in the order owner_id, city, minimum price, maximum
    price, minimum rating, then the limit; each with the comparison it
    feeds. *)
Definition spec_bindings (o : options) (limit : jsval) : list (string * jsval) :=
  ((if truthy (owner_id o) then [("=", JStr (to_string (owner_id o)))] else [])
   ++ (if truthy (city o) then [("LIKE", JStr ("%" ++ to_string (city o) ++ "%"))] else [])
   ++ (if truthy (minimum_price_per_night o)
       then [(">", JStr (to_string (minimum_price_per_night o)))] else [])
   ++ (if truthy (maximum_price_per_night o)
       then [("<", JStr (to_string (maximum_price_per_night o)))] else [])
   ++ (if truthy (minimum_rating o)
       then [(">=", JStr (to_string (minimum_rating o)))] else [])
   ++ [("LIMIT", match limit with JUndef => JNum 10 | l => l end)])%list.

(** The options with every falsy entry replaced by an absent key. *)
Definition drop_falsy (o : options) : options :=
  let keep v := if truthy v then v else JUndef in
  {| owner_id := keep (owner_id o); city := keep (city o);
     minimum_price_per_night := keep (minimum_price_per_night o);
     maximum_price_per_night := keep (maximum_price_per_night o);
     minimum_rating := keep (minimum_rating o) |}.

Definition count_truthy (o : options) : nat :=
  length (filter truthy [owner_id o; city o; minimum_price_per_night o;
                         maximum_price_per_night o; minimum_rating o]).

Definition price_100_200 : options :=
  {| owner_id := JUndef; city := JUndef; minimum_price_per_night := JNum 100;
     maximum_price_per_night := JNum 200; minimum_rating := JUndef |}.

Definition vancouver_upper : property :=
  {| prop_id := 1; prop_owner_id := 7; prop_title := "Loft"; prop_cost_per_night := 15000;
     prop_city := "Vancouver" |}.

Definition vancouver_lower : property :=
  {| prop_id := 2; prop_owner_id := 8; prop_title := "Cabin"; prop_cost_per_night := 9000;
     prop_city := "vancouver" |}.

Definition sample_db : db :=
  {| db_users := []; db_next_user_id := 1;
     db_properties := [vancouver_upper; vancouver_lower];
     db_reviews := [{| review_property_id := 1; review_rating := 4 |};
                    {| review_property_id := 2; review_rating := 5 |};
                    {| review_property_id := 1; review_rating := 3 |}] |}.

Definition city_van : options :=
  {| owner_id := JUndef; city := JStr "Van"; minimum_price_per_night := JUndef;
     maximum_price_per_night := JUndef; minimum_rating := JUndef |}.

(** A character that LIKE reads literally. *)
Definition plain (c : ascii) : bool :=
  negb (Ascii.eqb c "%") && negb (Ascii.eqb c "_") && negb (Ascii.eqb c "\").

Definition no_wildcards (s : string) : bool := forallb plain (list_ascii_of_string s).

(** Two option objects that agree on which filters are truthy and on
    the values of the truthy ones. *)
Definition agree (v w : jsval) : Prop :=
  truthy v = truthy w /\ (truthy v = true -> v = w).

Definition owner_and_city : options :=
  {| owner_id := JNum 1; city := JStr "Vancouver"; minimum_price_per_night := JUndef;
     maximum_price_per_night := JUndef; minimum_rating := JUndef |}.

(** Non-decreasing [cost_per_night]. *)
Definition cost_le (g h : property * Q) : Prop :=
  (prop_cost_per_night (fst g) <= prop_cost_per_night (fst h))%Z.

(** A pool whose every query fails. *)
Definition failing_pool (q : string) (ps : list jsval) (s : unit) : unit * qresult :=
  (s, QErr "connection refused").

End Reading.

Module Reading2.
Import Promise.
(** A settled outcome that is a rejection. *)
Definition is_rejected {S A} (r : S * list string * settled A) : bool :=
  match r with (_, _, Rejected _) => true | _ => false end.
End Reading2.

(** ** Reading an INSERT statement back *)

Module Reading3.
Import Build Pg.

(** A word without its last character, and that character. *)
Definition split_last (t : string) : option (string * ascii) :=
  match rev (list_ascii_of_string t) with
  | c :: l => Some (string_of_list_ascii (rev l), c)
  | [] => None
  end.

(** The items of a parenthesised list [a, b, ..., z)]: words ending in a
    comma, then a word ending in [)]. *)
Fixpoint read_items (ts : list string) : option (list string * list string) :=
  match ts with
  | [] => None
  | t :: r =>
      match split_last t with
      | Some (x, c) =>
          if Ascii.eqb c "," then
            match read_items r with
            | Some (xs, r') => Some (x :: xs, r')
            | None => None
            end
          else if Ascii.eqb c ")" then Some ([x], r)
          else None
      | None => None
      end
  end.

(** A word [head(rest]: the part before the first [(] and the rest. *)
Fixpoint split_paren (l : list ascii) (acc : list ascii) : option (string * string) :=
  match l with
  | [] => None
  | c :: l' =>
      if Ascii.eqb c "(" then Some (string_of_list_ascii (rev acc), string_of_list_ascii l')
      else split_paren l' (c :: acc)
  end.

Fixpoint all_some {A} (l : list (option A)) : option (list A) :=
  match l with
  | [] => Some []
  | Some x :: l' => option_map (cons x) (all_some l')
  | None :: _ => None
  end.

(** [INSERT INTO table(c1, ..., cn) VALUES($i1, ..., $im) RETURNING *;]
    read as the table, its columns and the placeholder numbers. *)
Definition read_insert (ts : list string) : option (string * list string * list nat) :=
  match expect ["INSERT"; "INTO"] ts with
  | Some (t :: r) =>
      match split_paren (list_ascii_of_string t) [] with
      | Some (table, first) =>
          match read_items (first :: r) with
          | Some (cols, v :: r') =>
              match split_paren (list_ascii_of_string v) [] with
              | Some ("VALUES", first') =>
                  match read_items (first' :: r') with
                  | Some (phs, ["RETURNING"; "*;"]) =>
                      match all_some (map parse_ph phs) with
                      | Some ks => Some (table, cols, ks)
                      | None => None
                      end
                  | _ => None
                  end
              | _ => None
              end
          | _ => None
          end
      | None => None
      end
  | _ => None
  end.

(** A pool that records every call and answers with no rows. *)
Definition recording_pool (q : string) (ps : list jsval) (log : list (string * list jsval))
  : list (string * list jsval) * qresult :=
  ((log ++ [(q, ps)])%list, QOk []).

(** Non-decreasing [start_date]. *)
Definition start_le (x y : reservation * property * Q) : Prop :=
  (Store.resv_start x <= Store.resv_start y)%Z.

(** The [options] object with only [owner_id] set. *)
Definition only_owner (v : jsval) : Build.options :=
  {| owner_id := v; city := JUndef; minimum_price_per_night := JUndef;
     maximum_price_per_night := JUndef; minimum_rating := JUndef |}.

(** The search form with only the city field filled in. *)
Definition only_city (v : jsval) : Build.options :=
  {| owner_id := JUndef; city := v; minimum_price_per_night := JUndef;
     maximum_price_per_night := JUndef; minimum_rating := JUndef |}.

End Reading3.


(** * Properties *)

Module Facts.
Import Build Ops Pg Reading Reading2.

(** Split on the truthiness of the five filters of [getAllProperties]. *)
Ltac case_filters o :=
  destruct (truthy (owner_id o)), (truthy (city o)),
    (truthy (minimum_price_per_night o)), (truthy (maximum_price_per_night o)),
    (truthy (minimum_rating o)).


Lemma build_agree (o o' : options) (limit : jsval) :
  agree (owner_id o) (owner_id o') ->
  agree (city o) (city o') ->
  agree (minimum_price_per_night o) (minimum_price_per_night o') ->
  agree (maximum_price_per_night o) (maximum_price_per_night o') ->
  agree (minimum_rating o) (minimum_rating o') ->
  getAllProperties_build o limit = getAllProperties_build o' limit.
Proof.
  intros [T1 V1] [T2 V2] [T3 V3] [T4 V4] [T5 V5].
  unfold getAllProperties_build.
  rewrite <- T1, <- T2, <- T3, <- T4, <- T5.
  destruct (truthy (owner_id o)) eqn:E1; try rewrite (V1 eq_refl);
  destruct (truthy (city o)) eqn:E2; try rewrite (V2 eq_refl);
  destruct (truthy (minimum_price_per_night o)) eqn:E3; try rewrite (V3 eq_refl);
  destruct (truthy (maximum_price_per_night o)) eqn:E4; try rewrite (V4 eq_refl);
  destruct (truthy (minimum_rating o)) eqn:E5; try rewrite (V5 eq_refl);
  reflexivity.
Qed.

Lemma agree_keep (v : jsval) : agree v (if truthy v then v else JUndef).
Proof. unfold agree; destruct (truthy v) eqn:E; split; intros; try congruence; auto. Qed.

(** C10: an entry is a filter exactly when it is truthy: [0], [""],
    [null] and [undefined] are falsy, replacing every falsy entry by an
    absent key changes neither the text nor the parameters, and there
    is one parameter per truthy entry plus the limit. *)
Theorem getAllProperties_filters_are_truthy_entries :
  (truthy (JNum 0) = false /\ truthy (JStr "") = false /\
   truthy JNull = false /\ truthy JUndef = false) /\
  forall (o : options) (limit : jsval),
    getAllProperties_build o limit = getAllProperties_build (drop_falsy o) limit /\
    length (snd (getAllProperties_build o limit)) = S (count_truthy o).
Proof.
  split; [repeat split; reflexivity |].
  intros o limit; split.
  - apply build_agree; apply agree_keep.
  - unfold getAllProperties_build, count_truthy; simpl filter.
    case_filters o; reflexivity.
Qed.

(** C2: the parameters are the present filters' values in the order
    owner_id, city, minimum price, maximum price, minimum rating, then
    the limit; the placeholders of the text are [$1 .. $n] in that
    order, and the [i]-th is the operand of the comparison of the
    [i]-th parameter. *)
Theorem getAllProperties_positional_parameters (o : options) (limit : jsval) :
  let '(queryString, queryParams) := getAllProperties_build o limit in
  queryParams = map snd (spec_bindings o limit) /\
  placeholder_uses "" (tokens queryString)
    = combine (map fst (spec_bindings o limit)) (seq 1 (length queryParams)).
Proof.
  unfold getAllProperties_build, spec_bindings.
  case_filters o; split; reflexivity.
Qed.

Lemma no_dangling_where (o : options) (limit : jsval) :
  dangling_where (tokens (fst (getAllProperties_build o limit))) = false.
Proof. unfold getAllProperties_build; case_filters o; reflexivity. Qed.

(** C3 (the spec's dangling WHERE does not arise): with no filter the
    text has no WHERE at all. *)
Lemma getAllProperties_no_options_has_no_where :
  count_word "WHERE" (tokens (fst (getAllProperties_build no_options JUndef))) = 0%nat /\
  dangling_where (tokens (fst (getAllProperties_build no_options JUndef))) = false.
Proof. split; reflexivity. Qed.

(** C3 amended: without filters the statement has no WHERE keyword and
    the limit as its only parameter; no option object ever leaves a
    WHERE without a predicate. *)
Theorem getAllProperties_where_only_with_predicate :
  (forall limit : jsval,
     count_word "WHERE" (tokens (fst (getAllProperties_build no_options limit))) = 0%nat /\
     snd (getAllProperties_build no_options limit)
       = [match limit with JUndef => JNum 10 | l => l end]) /\
  (forall (o : options) (limit : jsval),
     dangling_where (tokens (fst (getAllProperties_build o limit))) = false).
Proof.
  split.
  - intros limit; split; reflexivity.
  - exact no_dangling_where.
Qed.


(** C1 (code bug): with owner_id and city, the city condition is
    prefixed with a second WHERE, and the server rejects the text. *)
Lemma getAllProperties_owner_city_two_wheres :
  count_word "WHERE" (tokens (fst (getAllProperties_build owner_and_city JUndef))) = 2%nat /\
  forall d : db,
    getAllProperties _ db_run owner_and_city JUndef d = (d, ["syntax error"], Resolved OUndef).
Proof. split; [reflexivity | intro d; reflexivity]. Qed.

Ltac run_promise :=
  unfold catch_, then_, pool_query, log_null, console_log, ret, throw.

(** C5: when the query fails, [getAllProperties] logs the message and
    resolves to undefined, the other five operations log it and resolve
    to null; whatever the pool does, no operation rejects. *)
Theorem database_errors_are_swallowed (S : Type)
    (query : string -> list jsval -> S -> S * qresult) :
  (forall o limit q ps s s' m,
     getAllProperties_build o limit = (q, ps) -> query q ps s = (s', QErr m) ->
     getAllProperties S query o limit s = (s', [m], Resolved OUndef)) /\
  (forall e s s' m,
     query getUserWithEmail_sql [e] s = (s', QErr m) ->
     getUserWithEmail S query e s = (s', [m], Resolved ONull)) /\
  (forall i s s' m,
     query getUserWithId_sql [i] s = (s', QErr m) ->
     getUserWithId S query i s = (s', [m], Resolved ONull)) /\
  (forall u s s' m,
     query addUser_sql [name u; password u; email u] s = (s', QErr m) ->
     addUser S query u s = (s', [m], Resolved ONull)) /\
  (forall g limit s s' m,
     query getAllReservations_sql [g; match limit with JUndef => JNum 10 | l => l end] s
       = (s', QErr m) ->
     getAllReservations S query g limit s = (s', [m], Resolved ONull)) /\
  (forall pr s s' m,
     query addProperty_sql (map pr propertyValues) s = (s', QErr m) ->
     addProperty S query pr s = (s', [m], Resolved ONull)) /\
  (forall o limit e i u g pr s,
     is_rejected (getAllProperties S query o limit s) = false /\
     is_rejected (getUserWithEmail S query e s) = false /\
     is_rejected (getUserWithId S query i s) = false /\
     is_rejected (addUser S query u s) = false /\
     is_rejected (getAllReservations S query g limit s) = false /\
     is_rejected (addProperty S query pr s) = false).
Proof.
  repeat split; intros.
  - unfold getAllProperties; rewrite H; run_promise; rewrite H0; reflexivity.
  - unfold getUserWithEmail; run_promise; rewrite H; reflexivity.
  - unfold getUserWithId; run_promise; rewrite H; reflexivity.
  - unfold addUser; run_promise; rewrite H; reflexivity.
  - unfold getAllReservations; run_promise; rewrite H; reflexivity.
  - unfold addProperty; run_promise; rewrite H; reflexivity.
  - unfold getAllProperties; destruct (getAllProperties_build o limit) as [q ps];
      run_promise; destruct (query q ps s) as [s1 [rows | m]]; reflexivity.
  - unfold getUserWithEmail; run_promise;
      destruct (query _ _ s) as [s1 [[| r rows] | m]]; reflexivity.
  - unfold getUserWithId; run_promise;
      destruct (query _ _ s) as [s1 [[| r rows] | m]]; reflexivity.
  - unfold addUser; run_promise; destruct (query _ _ s) as [s1 [rows | m]]; reflexivity.
  - unfold getAllReservations; run_promise;
      destruct (query _ _ s) as [s1 [rows | m]]; reflexivity.
  - unfold addProperty; run_promise; destruct (query _ _ s) as [s1 [rows | m]]; reflexivity.
Qed.

Lemma database_errors_are_swallowed_witness :
  getAllProperties_build no_options JUndef
    = (fst (getAllProperties_build no_options JUndef),
       snd (getAllProperties_build no_options JUndef)) /\
  failing_pool (fst (getAllProperties_build no_options JUndef))
    (snd (getAllProperties_build no_options JUndef)) tt = (tt, QErr "connection refused") /\
  getAllProperties unit failing_pool no_options JUndef tt
    = (tt, ["connection refused"], Resolved OUndef).
Proof.
  assert (B : getAllProperties_build no_options JUndef
              = (fst (getAllProperties_build no_options JUndef),
                 snd (getAllProperties_build no_options JUndef))) by reflexivity.
  assert (F : failing_pool (fst (getAllProperties_build no_options JUndef))
                (snd (getAllProperties_build no_options JUndef)) tt
              = (tt, QErr "connection refused")) by reflexivity.
  split; [exact B | split; [exact F |]].
  exact (proj1 (database_errors_are_swallowed unit failing_pool) no_options JUndef _ _ tt tt
           "connection refused" B F).
Defined.

Lemma filter_none {A} (f : A -> bool) (l : list A) :
  existsb f l = false -> filter f l = [].
Proof.
  induction l as [| x l IH]; simpl; auto.
  destruct (f x); simpl; [discriminate | auto].
Qed.

Lemma tokens_getUserWithEmail_sql : tokens getUserWithEmail_sql = user_by_email_words.
Proof. vm_compute; reflexivity. Qed.

Lemma db_run_getUserWithEmail (ps : list jsval) (d : db) :
  db_run getUserWithEmail_sql ps d = (d, exec_user_by_email d ps).
Proof. unfold db_run; rewrite tokens_getUserWithEmail_sql; reflexivity. Qed.

(** C6: an email that no user has gives null after logging, and so
    does any failure of the query; the promise never rejects. *)
Theorem getUserWithEmail_not_found_is_null :
  (forall (d : db) (e : string),
     existsb (fun u => String.eqb (user_email u) e) (db_users d) = false ->
     getUserWithEmail _ db_run (JStr e) d = (d, ["Invalid email address"], Resolved ONull)) /\
  (forall (S : Type) (query : string -> list jsval -> S -> S * qresult) v s s' m,
     query getUserWithEmail_sql [v] s = (s', QErr m) ->
     getUserWithEmail S query v s = (s', [m], Resolved ONull)) /\
  (forall (S : Type) (query : string -> list jsval -> S -> S * qresult) v s,
     is_rejected (getUserWithEmail S query v s) = false).
Proof.
  split; [| split].
  - intros d e H. unfold getUserWithEmail; run_promise.
    rewrite db_run_getUserWithEmail. unfold exec_user_by_email; simpl pg_param.
    cbn. rewrite (filter_none _ _ H). reflexivity.
  - intros S query v s s' m H. unfold getUserWithEmail; run_promise; rewrite H; reflexivity.
  - intros S query v s. unfold getUserWithEmail; run_promise;
      destruct (query _ _ s) as [s1 [[| r rows] | m]]; reflexivity.
Qed.

Lemma getUserWithEmail_not_found_is_null_witness :
  existsb (fun u => String.eqb (user_email u) "nobody@example.com") (db_users sample_db) = false /\
  getUserWithEmail _ db_run (JStr "nobody@example.com") sample_db
    = (sample_db, ["Invalid email address"], Resolved ONull).
Proof.
  assert (H : existsb (fun u => String.eqb (user_email u) "nobody@example.com")
                (db_users sample_db) = false) by reflexivity.
  split; [exact H |].
  exact (proj1 getUserWithEmail_not_found_is_null sample_db "nobody@example.com" H).
Defined.

Lemma tokens_addUser_sql : tokens addUser_sql = insert_user_words.
Proof. vm_compute; reflexivity. Qed.

Lemma db_run_addUser (ps : list jsval) (d : db) :
  db_run addUser_sql ps d = exec_insert_user d ps.
Proof. unfold db_run; rewrite tokens_addUser_sql; reflexivity. Qed.

(** C9: when no user has the email, [addUser] succeeds, and looking the
    email up afterwards gives a user with the same name and email. *)
Theorem addUser_then_getUserWithEmail (d : db) (n p e : string) :
  existsb (fun u => String.eqb (user_email u) e) (db_users d) = false ->
  exists u d1,
    addUser _ db_run {| name := JStr n; password := JStr p; email := JStr e |} d
      = (d1, [], Resolved (ORow (RUser u))) /\
    exists u',
      getUserWithEmail _ db_run (JStr e) d1 = (d1, [], Resolved (ORow (RUser u'))) /\
      user_name u' = n /\ user_email u' = e.
Proof.
  intros H.
  unfold addUser; run_promise; rewrite db_run_addUser.
  cbv [exec_insert_user pg_param name password email]; rewrite H.
  eexists; eexists; split; [reflexivity |].
  eexists; split.
  - unfold getUserWithEmail; run_promise; rewrite db_run_getUserWithEmail.
    cbv [exec_user_by_email pg_param]; cbn [db_users].
    rewrite filter_app, (filter_none _ _ H); cbn.
    rewrite String.eqb_refl; reflexivity.
  - split; reflexivity.
Qed.

Lemma addUser_then_getUserWithEmail_witness :
  existsb (fun u => String.eqb (user_email u) "ada@example.com") (db_users sample_db) = false /\
  exists u d1,
    addUser _ db_run {| name := JStr "Ada"; password := JStr "pw";
                        email := JStr "ada@example.com" |} sample_db
      = (d1, [], Resolved (ORow (RUser u))) /\
    exists u',
      getUserWithEmail _ db_run (JStr "ada@example.com") d1
        = (d1, [], Resolved (ORow (RUser u'))) /\
      user_name u' = "Ada" /\ user_email u' = "ada@example.com".
Proof.
  assert (H : existsb (fun u => String.eqb (user_email u) "ada@example.com")
                (db_users sample_db) = false) by reflexivity.
  split; [exact H |].
  exact (addUser_then_getUserWithEmail sample_db "Ada" "pw" "ada@example.com" H).
Defined.

(** *** Integers survive the trip through the driver *)

Lemma pg_int_Z_to_string (z : Z) : pg_int (Z_to_string z) = Some z.
Proof.
  unfold pg_int, Z_to_string.
  rewrite NilZero.isi; [simpl; f_equal; apply DecimalZ.of_to | |];
    destruct z; simpl; try discriminate;
    intros E; injection E; apply DecimalPos.Unsigned.to_uint_nonnil.
Qed.

Lemma as_int_type_Z (ty : string) (lo hi z : Z) :
  (lo <= z < hi)%Z -> as_int_type ty lo hi (Ok (Some (Z_to_string z))) = Ok (Some z).
Proof.
  intros H; unfold as_int_type; rewrite pg_int_Z_to_string.
  replace ((lo <=? z) && (z <? hi))%Z with true; [reflexivity |].
  symmetry; apply andb_true_iff; split; [apply Z.leb_le | apply Z.ltb_lt]; lia.
Qed.

Lemma as_int_num (z : Z) :
  (-2147483648 <= z < 2147483648)%Z -> as_int (Ok (pg_param (JNum z))) = Ok (Some z).
Proof. intros H; apply as_int_type_Z; exact H. Qed.

Lemma as_bigint_num (z : Z) :
  (-9223372036854775808 <= z < 9223372036854775808)%Z ->
  as_bigint (Ok (pg_param (JNum z))) = Ok (Some z).
Proof. intros H; apply as_int_type_Z; exact H. Qed.



(** *** Ordering and limit *)


Lemma insert_by_cost_sorted (g : property * Q) (l : list (property * Q)) :
  Sorted cost_le l -> Sorted cost_le (insert_by_cost g l).
Proof.
  induction 1 as [| h l Hs IH Hd]; simpl.
  - repeat constructor.
  - unfold cost_le in *.
    destruct (Z.leb_spec (prop_cost_per_night (fst g)) (prop_cost_per_night (fst h))).
    + constructor; [constructor; auto | constructor; auto].
    + constructor; [exact IH |].
      destruct l as [| h' l]; simpl.
      * constructor; unfold cost_le; lia.
      * destruct (Z.leb (prop_cost_per_night (fst g)) (prop_cost_per_night (fst h')));
          constructor; unfold cost_le; [lia |].
        inversion Hd; assumption.
Qed.

Lemma sort_by_cost_sorted (l : list (property * Q)) : Sorted cost_le (sort_by_cost l).
Proof.
  induction l as [| g l IH]; simpl; [constructor | apply insert_by_cost_sorted; exact IH].
Qed.

Lemma firstn_sorted {A} (R : A -> A -> Prop) (n : nat) (l : list A) :
  Sorted R l -> Sorted R (firstn n l).
Proof.
  revert l; induction n as [| n IH]; intros l Hs; simpl; [constructor |].
  destruct l as [| x l]; [constructor |].
  inversion Hs; subst. constructor; [apply IH; assumption |].
  destruct l as [| y l]; destruct n; simpl; constructor.
  inversion H2; assumption.
Qed.

Lemma build_no_options (limit : jsval) :
  fst (getAllProperties_build no_options limit) = fst (getAllProperties_build no_options JUndef).
Proof. reflexivity. Qed.

Lemma parse_no_options :
  parse_props (tokens (fst (getAllProperties_build no_options JUndef)))
  = Some {| pq_conds := []; pq_having := None; pq_limit := 1 |}.
Proof. vm_compute; reflexivity. Qed.


(** *** Every returned property passed the bound conditions *)

Lemma in_apply_limit {A} (l : option nat) (xs : list A) (x : A) :
  In x (apply_limit l xs) -> In x xs.
Proof.
  destruct l as [n |]; simpl; [| auto].
  intros H; rewrite <- (firstn_skipn n xs); apply in_or_app; left; exact H.
Qed.

Lemma in_insert_by_cost (g x : property * Q) (l : list (property * Q)) :
  In x (insert_by_cost g l) -> x = g \/ In x l.
Proof.
  induction l as [| h l IH]; simpl; [intuition |].
  destruct (prop_cost_per_night (fst g) <=? prop_cost_per_night (fst h))%Z;
    simpl; intuition.
Qed.

Lemma in_sort_by_cost (x : property * Q) (l : list (property * Q)) :
  In x (sort_by_cost l) -> In x l.
Proof.
  induction l as [| g l IH]; simpl; [auto |].
  intros H; apply in_insert_by_cost in H; intuition.
Qed.

Lemma in_groups (d : db) (bs : list bcond) (g : property * Q) :
  In g (groups d bs) -> forallb (fun c => cond_holds c (fst g)) bs = true.
Proof.
  unfold groups; rewrite in_flat_map; intros [p [_ Hp]].
  destruct (forallb (fun c => cond_holds c p) bs) eqn:E; [| destruct Hp].
  destruct (reviews_of d p) as [| r rs]; [destruct Hp |].
  destruct Hp as [<- | []]; exact E.
Qed.

Lemma in_run_props (d : db) (b : bound_query) (p : property) (a : Q) :
  In (RProp p a) (run_props d b) -> forallb (fun c => cond_holds c p) (bq_conds b) = true.
Proof.
  unfold run_props; rewrite in_map_iff; intros [g [Hg Hin]].
  injection Hg as <- <-.
  apply in_apply_limit, in_sort_by_cost, filter_In in Hin.
  apply (in_groups d), Hin.
Qed.

Lemma no_prop_in_users (p : property) (a : Q) (us : list user) :
  ~ In (RProp p a) (map RUser us).
Proof. rewrite in_map_iff; intros [u [H _]]; discriminate. Qed.

Lemma db_run_prop_rows (q : string) (ps : list jsval) (d d' : db) rows p a :
  db_run q ps d = (d', QOk rows) -> In (RProp p a) rows ->
  exists pq b, parse_props (tokens q) = Some pq /\ bind_props ps pq = Ok b /\
               rows = run_props d b.
Proof.
  unfold db_run.
  destruct (parse_props (tokens q)) as [pq |] eqn:P.
  - unfold exec_props; destruct (bind_props ps pq) as [b | m] eqn:B; intros H.
    + injection H as _ <-; eauto.
    + discriminate H.
  - destruct (words_eqb (tokens q) user_by_email_words).
    { unfold exec_user_by_email; intros H Hin.
      destruct ps as [| v [| v' ps]]; try discriminate H.
      destruct (pg_param v); injection H as _ <-;
        [apply no_prop_in_users in Hin | ]; contradiction. }
    destruct (words_eqb (tokens q) user_by_id_words).
    { unfold exec_user_by_id; intros H Hin.
      destruct ps as [| v [| v' ps]]; try discriminate H.
      destruct (as_int (Ok (pg_param v))) as [[z |] | m]; try discriminate H;
        injection H as _ <-; [apply no_prop_in_users in Hin | ]; contradiction. }
    destruct (words_eqb (tokens q) insert_user_words); [| discriminate].
    unfold exec_insert_user; intros H Hin.
    destruct ps as [| v1 [| v2 [| v3 [| v4 ps]]]]; try discriminate H.
    destruct (pg_param v1), (pg_param v2), (pg_param v3); try discriminate H.
    destruct (existsb _ _); [discriminate H |].
    injection H as _ <-.
    destruct Hin as [H | []]; discriminate.
Qed.

Lemma getAllProperties_prop_rows (o : options) (limit : jsval) (d d' : db) log rows p a :
  getAllProperties _ db_run o limit d = (d', log, Resolved (ORows rows)) ->
  In (RProp p a) rows ->
  exists pq b,
    parse_props (tokens (fst (getAllProperties_build o limit))) = Some pq /\
    bind_props (snd (getAllProperties_build o limit)) pq = Ok b /\
    forallb (fun c => cond_holds c p) (bq_conds b) = true.
Proof.
  unfold getAllProperties; destruct (getAllProperties_build o limit) as [q ps]; simpl fst; simpl snd.
  run_promise.
  destruct (db_run q ps d) as [d1 [rs | m]] eqn:E; intros H Hin.
  - injection H as _ _ <-.
    destruct (db_run_prop_rows q ps d d1 rs p a E Hin) as [pq [b [P [B R]]]].
    exists pq, b; split; [exact P | split; [exact B |]].
    subst rs; apply (in_run_props d b p a), Hin.
  - discriminate H.
Qed.

Lemma bind_props_conds (ps : list jsval) (pq : props_query) (b : bound_query) :
  bind_props ps pq = Ok b -> bind_conds ps (pq_conds pq) = Ok (bq_conds b).
Proof.
  unfold bind_props.
  destruct (negb _); [discriminate |].
  destruct (bind_conds ps (pq_conds pq)) as [bs | m]; [| discriminate].
  destruct (match pq_having pq with None => _ | Some k => _ end) as [h | m]; [| discriminate].
  destruct (bind_limit ps (pq_limit pq)) as [l | m]; [| discriminate].
  intros H; injection H as <-; reflexivity.
Qed.

Lemma bind_conds_in (ps : list jsval) (cs : list cond) (bs : list bcond) (c : cond) :
  bind_conds ps cs = Ok bs -> In c cs -> exists bc, bind_cond ps c = Ok bc /\ In bc bs.
Proof.
  revert bs; induction cs as [| c' cs IH]; simpl; intros bs H Hin; [destruct Hin |].
  destruct (bind_cond ps c') as [b | m] eqn:E1; [| discriminate].
  destruct (bind_conds ps cs) as [bs' | m]; [| discriminate].
  injection H as <-.
  destruct Hin as [<- | Hin].
  - exists b; simpl; auto.
  - destruct (IH bs' eq_refl Hin) as [bc [H1 H2]]; exists bc; simpl; auto.
Qed.

(** Where the text names the placeholder of each truthy filter. *)
Ltac place_filter o :=
  unfold getAllProperties_build; case_filters o; intros H T; try discriminate T;
  vm_compute in H; try discriminate H; injection H as <-;
  eexists; (split; [simpl; eauto 10 | reflexivity]).

Lemma build_min_cond (o : options) (limit : jsval) (pq : props_query) :
  parse_props (tokens (fst (getAllProperties_build o limit))) = Some pq ->
  truthy (minimum_price_per_night o) = true ->
  exists k, In (CondMin k) (pq_conds pq) /\
    nth_error (snd (getAllProperties_build o limit)) (pred k)
      = Some (JStr (to_string (minimum_price_per_night o))).
Proof. place_filter o. Qed.

Lemma build_max_cond (o : options) (limit : jsval) (pq : props_query) :
  parse_props (tokens (fst (getAllProperties_build o limit))) = Some pq ->
  truthy (maximum_price_per_night o) = true ->
  exists k, In (CondMax k) (pq_conds pq) /\
    nth_error (snd (getAllProperties_build o limit)) (pred k)
      = Some (JStr (to_string (maximum_price_per_night o))).
Proof. place_filter o. Qed.

Lemma build_city_cond (o : options) (limit : jsval) (pq : props_query) :
  parse_props (tokens (fst (getAllProperties_build o limit))) = Some pq ->
  truthy (city o) = true ->
  exists k, In (CondCity k) (pq_conds pq) /\
    nth_error (snd (getAllProperties_build o limit)) (pred k)
      = Some (JStr ("%" ++ to_string (city o) ++ "%")).
Proof. place_filter o. Qed.

(** The bound condition found for a placeholder of a returned row. *)
Lemma returned_row_bound (o : options) (limit : jsval) (d d' : db) log rows p a
    (c : cond) :
  getAllProperties _ db_run o limit d = (d', log, Resolved (ORows rows)) ->
  In (RProp p a) rows ->
  (forall pq, parse_props (tokens (fst (getAllProperties_build o limit))) = Some pq ->
              In c (pq_conds pq)) ->
  exists bc, bind_cond (snd (getAllProperties_build o limit)) c = Ok bc /\
             cond_holds bc p = true.
Proof.
  intros H Hin Hc.
  destruct (getAllProperties_prop_rows o limit d d' log rows p a H Hin) as [pq [b [P [B F]]]].
  destruct (bind_conds_in _ _ _ c (bind_props_conds _ _ _ B) (Hc pq P)) as [bc [Hbc Hbin]].
  exists bc; split; [exact Hbc |].
  rewrite forallb_forall in F; exact (F bc Hbin).
Qed.

Lemma returned_row_min (o : options) (limit : jsval) (d d' : db) log rows p a :
  getAllProperties _ db_run o limit d = (d', log, Resolved (ORows rows)) ->
  In (RProp p a) rows ->
  truthy (minimum_price_per_night o) = true ->
  exists m, pg_int (to_string (minimum_price_per_night o)) = Some m /\
            (m < Z.quot (prop_cost_per_night p) 100)%Z.
Proof.
  intros H Hin T.
  assert (Hp : exists pq, parse_props (tokens (fst (getAllProperties_build o limit))) = Some pq).
  { destruct (getAllProperties_prop_rows o limit d d' log rows p a H Hin) as [pq [_ [P _]]]; eauto. }
  destruct Hp as [pq P].
  destruct (build_min_cond o limit pq P T) as [k [Hk Hn]].
  destruct (returned_row_bound o limit d d' log rows p a (CondMin k) H Hin)
    as [bc [Hbc Hh]].
  { intros pq' P'; rewrite P in P'; injection P' as <-; exact Hk. }
  unfold bind_cond, param in Hbc.
  destruct k as [| k]; [discriminate Hbc |]; cbn [pred] in Hn; rewrite Hn in Hbc.
  unfold as_int, as_int_type, pg_param, res_map in Hbc.
  destruct (pg_int (to_string (minimum_price_per_night o))) as [m |]; [| discriminate Hbc].
  destruct (_ && _)%bool; [| discriminate Hbc].
  injection Hbc as <-; exists m; split; [reflexivity |].
  apply Z.ltb_lt; exact Hh.
Qed.

Lemma returned_row_max (o : options) (limit : jsval) (d d' : db) log rows p a :
  getAllProperties _ db_run o limit d = (d', log, Resolved (ORows rows)) ->
  In (RProp p a) rows ->
  truthy (maximum_price_per_night o) = true ->
  exists m, pg_int (to_string (maximum_price_per_night o)) = Some m /\
            (Z.quot (prop_cost_per_night p) 100 < m)%Z.
Proof.
  intros H Hin T.
  assert (Hp : exists pq, parse_props (tokens (fst (getAllProperties_build o limit))) = Some pq).
  { destruct (getAllProperties_prop_rows o limit d d' log rows p a H Hin) as [pq [_ [P _]]]; eauto. }
  destruct Hp as [pq P].
  destruct (build_max_cond o limit pq P T) as [k [Hk Hn]].
  destruct (returned_row_bound o limit d d' log rows p a (CondMax k) H Hin)
    as [bc [Hbc Hh]].
  { intros pq' P'; rewrite P in P'; injection P' as <-; exact Hk. }
  unfold bind_cond, param in Hbc.
  destruct k as [| k]; [discriminate Hbc |]; cbn [pred] in Hn; rewrite Hn in Hbc.
  unfold as_int, as_int_type, pg_param, res_map in Hbc.
  destruct (pg_int (to_string (maximum_price_per_night o))) as [m |]; [| discriminate Hbc].
  destruct (_ && _)%bool; [| discriminate Hbc].
  injection Hbc as <-; exists m; split; [reflexivity |].
  apply Z.ltb_lt; exact Hh.
Qed.

Lemma returned_row_city (o : options) (limit : jsval) (d d' : db) log rows p a :
  getAllProperties _ db_run o limit d = (d', log, Resolved (ORows rows)) ->
  In (RProp p a) rows ->
  truthy (city o) = true ->
  like_str ("%" ++ to_string (city o) ++ "%") (prop_city p) = true.
Proof.
  intros H Hin T.
  assert (Hp : exists pq, parse_props (tokens (fst (getAllProperties_build o limit))) = Some pq).
  { destruct (getAllProperties_prop_rows o limit d d' log rows p a H Hin) as [pq [_ [P _]]]; eauto. }
  destruct Hp as [pq P].
  destruct (build_city_cond o limit pq P T) as [k [Hk Hn]].
  destruct (returned_row_bound o limit d d' log rows p a (CondCity k) H Hin)
    as [bc [Hbc Hh]].
  { intros pq' P'; rewrite P in P'; injection P' as <-; exact Hk. }
  unfold bind_cond, param in Hbc.
  destruct k as [| k]; [discriminate Hbc |]; cbn [pred] in Hn; rewrite Hn in Hbc.
  unfold pg_param, res_map in Hbc.
  injection Hbc as <-; exact Hh.
Qed.

(** C8: the minimum price filter keeps the rows whose
    [cost_per_night / 100] (integer division) is strictly above the
    bound and the maximum filter those strictly below it; with the bounds
    100 and 200 every row has [100 < cost_per_night / 100 < 200]. *)
Theorem getAllProperties_price_bounds_strict :
  (forall (o : options) (limit : jsval) (d d' : db) log rows p a,
     getAllProperties _ db_run o limit d = (d', log, Resolved (ORows rows)) ->
     In (RProp p a) rows ->
     (truthy (minimum_price_per_night o) = true ->
      exists m, pg_int (to_string (minimum_price_per_night o)) = Some m /\
                (m < Z.quot (prop_cost_per_night p) 100)%Z) /\
     (truthy (maximum_price_per_night o) = true ->
      exists m, pg_int (to_string (maximum_price_per_night o)) = Some m /\
                (Z.quot (prop_cost_per_night p) 100 < m)%Z)) /\
  (forall (limit : jsval) (d d' : db) log rows p a,
     getAllProperties _ db_run price_100_200 limit d = (d', log, Resolved (ORows rows)) ->
     In (RProp p a) rows ->
     (100 < Z.quot (prop_cost_per_night p) 100 < 200)%Z).
Proof.
  split.
  - intros o limit d d' log rows p a H Hin; split;
      [apply (returned_row_min o limit d d' log rows p a H Hin)
      | apply (returned_row_max o limit d d' log rows p a H Hin)].
  - intros limit d d' log rows p a H Hin.
    destruct (returned_row_min _ _ _ _ _ _ _ _ H Hin eq_refl) as [m1 [E1 L1]].
    destruct (returned_row_max _ _ _ _ _ _ _ _ H Hin eq_refl) as [m2 [E2 L2]].
    vm_compute in E1, E2; injection E1 as <-; injection E2 as <-; lia.
Qed.

Lemma getAllProperties_price_bounds_strict_witness :
  getAllProperties _ db_run price_100_200 JUndef sample_db
    = (sample_db, [], Resolved (ORows [RProp vancouver_upper (7 # 2)])) /\
  In (RProp vancouver_upper (7 # 2)) [RProp vancouver_upper (7 # 2)] /\
  (100 < Z.quot (prop_cost_per_night vancouver_upper) 100 < 200)%Z.
Proof.
  assert (H : getAllProperties _ db_run price_100_200 JUndef sample_db
              = (sample_db, [], Resolved (ORows [RProp vancouver_upper (7 # 2)])))
    by (vm_compute; reflexivity).
  split; [exact H | split; [left; reflexivity |]].
  exact (proj2 getAllProperties_price_bounds_strict JUndef sample_db sample_db [] _ _ _ H
           (or_introl eq_refl)).
Defined.

(** *** LIKE with a pattern [%s%] *)

Lemma like_plain_cons (c : ascii) (p s : list ascii) :
  plain c = true ->
  like (c :: p) s = match s with x :: s' => Ascii.eqb c x && like p s' | [] => false end.
Proof.
  unfold plain; intros H; simpl.
  destruct (Ascii.eqb c "%"), (Ascii.eqb c "_"), (Ascii.eqb c "\");
    simpl in H; try discriminate H; reflexivity.
Qed.

Lemma like_literal (l p s : list ascii) :
  forallb plain l = true ->
  (like (l ++ p)%list s = true <-> exists post, s = (l ++ post)%list /\ like p post = true).
Proof.
  revert s; induction l as [| c l IH]; intros s H.
  - simpl; split; [intros Hp; exists s; auto | intros [post [-> Hp]]; exact Hp].
  - simpl in H; apply andb_prop in H as [Hc Hl].
    change ((c :: l) ++ p)%list with (c :: (l ++ p))%list.
    rewrite (like_plain_cons c (l ++ p)%list s Hc).
    destruct s as [| x s].
    + split; [discriminate | intros [post [E _]]; discriminate E].
    + rewrite andb_true_iff, Ascii.eqb_eq, (IH s Hl).
      split.
      * intros [<- [post [-> Hp]]]; exists post; auto.
      * intros [post [E Hp]]; injection E as <- ->; eauto.
Qed.

Lemma like_percent_step (p s : list ascii) :
  like ("%"%char :: p) s = like p s || match s with [] => false | _ :: s' => like ("%"%char :: p) s' end.
Proof. destruct s; reflexivity. Qed.

Lemma like_percent (p s : list ascii) :
  like ("%"%char :: p) s = true <-> exists pre post, s = (pre ++ post)%list /\ like p post = true.
Proof.
  induction s as [| x s IH]; rewrite like_percent_step, orb_true_iff.
  - split.
    + intros [Hp | Hf]; [exists [], []; auto | discriminate Hf].
    + intros [pre [post [E Hp]]]; left.
      destruct pre, post; try discriminate E; exact Hp.
  - rewrite IH; split.
    + intros [Hp | [pre [post [-> Hp]]]].
      * exists [], (x :: s); auto.
      * exists (x :: pre), post; auto.
    + intros [[| y pre] [post [E Hp]]].
      * left; simpl in E; subst post; exact Hp.
      * right; injection E as <- ->; eauto.
Qed.

Lemma like_percent_only (s : list ascii) : like ["%"%char] s = true.
Proof. apply like_percent; exists s, []; rewrite app_nil_r; auto. Qed.

Lemma list_ascii_of_string_app (a b : string) :
  list_ascii_of_string (a ++ b) = (list_ascii_of_string a ++ list_ascii_of_string b)%list.
Proof. induction a as [| c a IH]; simpl; [reflexivity | rewrite IH; reflexivity]. Qed.

Lemma string_of_list_ascii_app (a b : list ascii) :
  string_of_list_ascii (a ++ b) = string_of_list_ascii a ++ string_of_list_ascii b.
Proof. induction a as [| c a IH]; simpl; [reflexivity | rewrite IH; reflexivity]. Qed.

Lemma like_contains (s c : string) :
  no_wildcards s = true ->
  (like_str ("%" ++ s ++ "%") c = true <-> exists pre post, c = pre ++ s ++ post).
Proof.
  intros H; unfold like_str.
  rewrite !list_ascii_of_string_app; cbn [list_ascii_of_string].
  cbn [app].
  rewrite like_percent.
  split.
  - intros [pre [post [E Hp]]].
    apply (like_literal _ _ _ H) in Hp as [post' [-> _]].
    exists (string_of_list_ascii pre), (string_of_list_ascii post').
    rewrite <- (string_of_list_ascii_of_string c), E.
    rewrite !string_of_list_ascii_app, string_of_list_ascii_of_string; reflexivity.
  - intros [pre [post ->]].
    rewrite !list_ascii_of_string_app.
    exists (list_ascii_of_string pre), (list_ascii_of_string s ++ list_ascii_of_string post)%list.
    split; [reflexivity |].
    apply (like_literal _ _ _ H); exists (list_ascii_of_string post); split; [reflexivity |].
    apply like_percent_only.
Qed.

(** C4 (the city filter is case-sensitive): with [city = "Van"],
    "Vancouver" matches and "vancouver" does not. *)
Lemma getAllProperties_city_case_sensitive :
  like_str "%Van%" "Vancouver" = true /\ like_str "%Van%" "vancouver" = false /\
  getAllProperties _ db_run city_van JUndef sample_db
    = (sample_db, [], Resolved (ORows [RProp vancouver_upper (7 # 2)])).
Proof. split; [| split]; vm_compute; reflexivity. Qed.

End Facts.

(** * Further properties of the operations *)

Module Extras.
Import Build Ops Pg Store Reading Reading2 Reading3 Facts.

(** *** Lists *)

Lemma filter_unique {A} (f : A -> bool) (l : list A) (x : A) :
  In x l -> f x = true -> (forall y, In y l -> f y = true -> y = x) ->
  exists rest, filter f l = x :: rest.
Proof.
  induction l as [| y l IH]; simpl; intros Hin Hf Hu; [destruct Hin |].
  destruct (f y) eqn:E.
  - rewrite (Hu y (or_introl eq_refl) E); eauto.
  - destruct Hin as [<- | Hin]; [congruence |].
    apply IH; auto.
Qed.

Lemma existsb_none {A} (f : A -> bool) (l : list A) :
  (forall x, In x l -> f x = false) -> existsb f l = false.
Proof.
  induction l as [| x l IH]; simpl; intros H; [reflexivity |].
  rewrite (H x (or_introl eq_refl)); apply IH; auto.
Qed.

Lemma flat_map_length_le {A B} (f : A -> list B) (l : list A) :
  (forall x, In x l -> (length (f x) <= 1)%nat) -> (length (flat_map f l) <= length l)%nat.
Proof.
  induction l as [| x l IH]; simpl; intros H; [lia |].
  rewrite length_app.
  specialize (H x (or_introl eq_refl)) as Hx.
  assert (length (flat_map f l) <= length l)%nat by (apply IH; auto).
  lia.
Qed.

Lemma flat_map_key_nil {A B} (f : A -> list B) (key : A -> Z) (k : Z) (l : list A) :
  ~ In k (map key l) -> (forall x, key x <> k -> f x = []) -> flat_map f l = [].
Proof.
  induction l as [| x l IH]; simpl; intros Hk Hf; [reflexivity |].
  rewrite (Hf x) by (intros E; apply Hk; left; exact E).
  apply IH; auto.
Qed.

Lemma flat_map_key_le_one {A B} (f : A -> list B) (key : A -> Z) (k : Z) (l : list A) :
  NoDup (map key l) -> (forall x, key x <> k -> f x = []) ->
  (forall x, (length (f x) <= 1)%nat) -> (length (flat_map f l) <= 1)%nat.
Proof.
  induction l as [| x l IH]; simpl; intros Hn Hf H1; [lia |].
  inversion Hn as [| ? ? Hx Hl]; subst.
  rewrite length_app.
  destruct (Z.eq_dec (key x) k) as [E | E].
  - rewrite (flat_map_key_nil f key k l); [| rewrite <- E; exact Hx | exact Hf].
    specialize (H1 x); simpl; lia.
  - rewrite (Hf x E); simpl; apply IH; auto.
Qed.

(** *** Sorting keeps the rows *)

Lemma insert_by_cost_perm (g : property * Q) (l : list (property * Q)) :
  Permutation (insert_by_cost g l) (g :: l).
Proof.
  induction l as [| h l IH]; simpl; [auto |].
  destruct (prop_cost_per_night (fst g) <=? prop_cost_per_night (fst h))%Z; [auto |].
  eapply perm_trans; [apply perm_skip, IH | apply perm_swap].
Qed.

Lemma sort_by_cost_perm (l : list (property * Q)) : Permutation (sort_by_cost l) l.
Proof.
  induction l as [| g l IH]; simpl; [auto |].
  eapply perm_trans; [apply insert_by_cost_perm | apply perm_skip, IH].
Qed.

Lemma insert_by_start_perm (x : reservation * property * Q) l :
  Permutation (insert_by_start x l) (x :: l).
Proof.
  induction l as [| h l IH]; simpl; [auto |].
  destruct (resv_start x <=? resv_start h)%Z; [auto |].
  eapply perm_trans; [apply perm_skip, IH | apply perm_swap].
Qed.

Lemma sort_by_start_perm l : Permutation (sort_by_start l) l.
Proof.
  induction l as [| x l IH]; simpl; [auto |].
  eapply perm_trans; [apply insert_by_start_perm | apply perm_skip, IH].
Qed.

Lemma insert_by_start_sorted x l : Sorted start_le l -> Sorted start_le (insert_by_start x l).
Proof.
  induction 1 as [| h l Hs IH Hd]; simpl.
  - repeat constructor.
  - unfold start_le in *.
    destruct (Z.leb_spec (resv_start x) (resv_start h)).
    + constructor; [constructor; auto | constructor; auto].
    + constructor; [exact IH |].
      destruct l as [| h' l]; simpl.
      * constructor; unfold start_le; lia.
      * destruct (resv_start x <=? resv_start h')%Z;
          constructor; unfold start_le; [lia |].
        inversion Hd; assumption.
Qed.

Lemma sort_by_start_sorted l : Sorted start_le (sort_by_start l).
Proof.
  induction l as [| x l IH]; simpl; [constructor | apply insert_by_start_sorted; exact IH].
Qed.

(** *** The groups of [getAllProperties] *)

Lemma in_groups_iff (d : db) (bs : list bcond) (p : property) (a : Q) :
  In (p, a) (groups d bs) <->
  In p (db_properties d) /\ forallb (fun c => cond_holds c p) bs = true /\
  reviews_of d p <> [] /\ a = average (reviews_of d p).
Proof.
  unfold groups; rewrite in_flat_map; split.
  - intros [p' [Hp' H]].
    destruct (forallb (fun c => cond_holds c p') bs) eqn:E; [| destruct H].
    destruct (reviews_of d p') as [| r rs] eqn:R; [destruct H |].
    destruct H as [H | []]; injection H as <- <-.
    rewrite R; repeat split; auto; discriminate.
  - intros [Hp [E [R A]]]; exists p; split; [exact Hp |].
    rewrite E; destruct (reviews_of d p) as [| r rs]; [congruence |].
    left; subst a; reflexivity.
Qed.

Lemma length_groups (d : db) (bs : list bcond) :
  (length (groups d bs) <= length (db_properties d))%nat.
Proof.
  apply flat_map_length_le; intros p _.
  destruct (forallb _ bs); [destruct (reviews_of d p); simpl; lia | simpl; lia].
Qed.

Lemma in_run_props_iff (d : db) (b : bound_query) (r : row) :
  In r (run_props d b) <->
  exists p a, r = RProp p a /\
    In (p, a) (apply_limit (bq_limit b)
                 (sort_by_cost (filter (having_holds (bq_having b)) (groups d (bq_conds b))))).
Proof.
  unfold run_props; rewrite in_map_iff; split.
  - intros [[p a] [<- H]]; eauto.
  - intros [p [a [-> H]]]; exists (p, a); auto.
Qed.

(** *** What the statement of [getAllProperties] binds *)

Lemma build_syntax (o : options) (limit : jsval) (ps : list jsval) (d : db) :
  parse_props (tokens (fst (getAllProperties_build o limit))) = None ->
  db_run (fst (getAllProperties_build o limit)) ps d = (d, QErr "syntax error").
Proof.
  unfold getAllProperties_build; case_filters o; intros H; vm_compute in H;
    first [discriminate H | unfold db_run; vm_compute; reflexivity].
Qed.

Lemma build_parse_none (o : options) (limit : jsval) :
  truthy (owner_id o) = true ->
  (truthy (city o) || truthy (minimum_price_per_night o)
   || truthy (maximum_price_per_night o))%bool = true ->
  parse_props (tokens (fst (getAllProperties_build o limit))) = None.
Proof.
  unfold getAllProperties_build; case_filters o; simpl; intros T1 T2;
    try discriminate T1; try discriminate T2; vm_compute; reflexivity.
Qed.

Lemma build_not_reservations (o : options) (limit : jsval) :
  words_eqb (tokens (fst (getAllProperties_build o limit))) reservations_words = false.
Proof. unfold getAllProperties_build; case_filters o; vm_compute; reflexivity. Qed.

Lemma build_limit (o : options) (limit : jsval) (pq : props_query) :
  parse_props (tokens (fst (getAllProperties_build o limit))) = Some pq ->
  exists i, pq_limit pq = S i /\
    nth_error (snd (getAllProperties_build o limit)) i
      = Some (match limit with JUndef => JNum 10 | l => l end).
Proof.
  unfold getAllProperties_build; case_filters o; intros H; vm_compute in H;
    try discriminate H; injection H as <-; eexists; split; reflexivity.
Qed.

Lemma build_rating (o : options) (limit : jsval) (pq : props_query) :
  parse_props (tokens (fst (getAllProperties_build o limit))) = Some pq ->
  truthy (minimum_rating o) = true ->
  exists i, pq_having pq = Some (S i) /\
    nth_error (snd (getAllProperties_build o limit)) i
      = Some (JStr (to_string (minimum_rating o))).
Proof.
  unfold getAllProperties_build; case_filters o; intros H T; try discriminate T;
    vm_compute in H; try discriminate H; injection H as <-; eexists; split; reflexivity.
Qed.

Lemma bind_props_limit (ps : list jsval) (pq : props_query) (b : bound_query) :
  bind_props ps pq = Ok b -> bind_limit ps (pq_limit pq) = Ok (bq_limit b).
Proof.
  unfold bind_props.
  destruct (negb _); [discriminate |].
  destruct (bind_conds ps (pq_conds pq)) as [bs | m]; [| discriminate].
  destruct (match pq_having pq with None => _ | Some k => _ end) as [h | m]; [| discriminate].
  destruct (bind_limit ps (pq_limit pq)) as [l | m]; [| discriminate].
  intros H; injection H as <-; reflexivity.
Qed.

Lemma bind_props_having (ps : list jsval) (pq : props_query) (b : bound_query) (k : nat) :
  bind_props ps pq = Ok b -> pq_having pq = Some k ->
  res_map Some (as_numeric (param ps k)) = Ok (bq_having b).
Proof.
  unfold bind_props.
  destruct (negb _); [discriminate |].
  destruct (bind_conds ps (pq_conds pq)) as [bs | m]; [| discriminate].
  intros H K; rewrite K in H.
  destruct (res_map Some (as_numeric (param ps k))) as [h | m]; [| discriminate].
  destruct (bind_limit ps (pq_limit pq)) as [l | m]; [| discriminate].
  injection H as <-; reflexivity.
Qed.

(** A resolved list of rows came from a statement that parsed and bound. *)
Lemma getAllProperties_success (o : options) (limit : jsval) (d d' : db) log rows :
  getAllProperties _ db_run o limit d = (d', log, Resolved (ORows rows)) ->
  exists pq b,
    parse_props (tokens (fst (getAllProperties_build o limit))) = Some pq /\
    bind_props (snd (getAllProperties_build o limit)) pq = Ok b /\
    rows = run_props d b /\ d' = d /\ log = [].
Proof.
  intros H.
  destruct (parse_props (tokens (fst (getAllProperties_build o limit)))) as [pq |] eqn:P.
  - revert H; unfold getAllProperties.
    destruct (getAllProperties_build o limit) as [q ps]; simpl fst in P; simpl snd.
    run_promise.
    unfold db_run at 1; rewrite P; unfold exec_props.
    destruct (bind_props ps pq) as [b | m] eqn:B; intros H.
    + injection H as <- <- <-; exists pq, b; repeat split; auto.
    + discriminate H.
  - pose proof (build_syntax o limit (snd (getAllProperties_build o limit)) d P) as E.
    revert H; unfold getAllProperties.
    destruct (getAllProperties_build o limit) as [q ps]; simpl fst in E; simpl snd in E.
    run_promise; rewrite E; discriminate.
Qed.

Lemma param_nth (ps : list jsval) (i : nat) (v : jsval) :
  nth_error ps i = Some v -> param ps (S i) = Ok (pg_param v).
Proof. intros H; unfold param; rewrite H; reflexivity. Qed.

Lemma bind_limit_safe (ps : list jsval) (i : nat) (n : Z) :
  nth_error ps i = Some (JNum n) -> (0 <= n <= 9007199254740991)%Z ->
  bind_limit ps (S i) = Ok (Some (Z.to_nat n)).
Proof.
  intros H R; unfold bind_limit; rewrite (param_nth ps i _ H), as_bigint_num by lia.
  replace (n <? 0)%Z with false by (symmetry; apply Z.ltb_ge; lia); reflexivity.
Qed.

Lemma bind_limit_nat_ok (ps : list jsval) (i n : nat) (l : option nat) :
  nth_error ps i = Some (JNum (Z.of_nat n)) -> bind_limit ps (S i) = Ok l -> l = Some n.
Proof.
  intros H; unfold bind_limit, as_bigint, as_int_type; rewrite (param_nth ps i _ H).
  cbn [pg_param]; rewrite pg_int_Z_to_string.
  destruct (_ && _)%bool; [| discriminate].
  replace (Z.of_nat n <? 0)%Z with false by (symmetry; apply Z.ltb_ge; lia).
  rewrite Nat2Z.id; intros E; injection E as <-; reflexivity.
Qed.

Lemma bind_limit_negative (ps : list jsval) (i : nat) (z : Z) :
  nth_error ps i = Some (JNum z) -> (-9007199254740991 <= z < 0)%Z ->
  bind_limit ps (S i) = Err "LIMIT must not be negative".
Proof.
  intros H R; unfold bind_limit; rewrite (param_nth ps i _ H), as_bigint_num by lia.
  replace (z <? 0)%Z with true by (symmetry; apply Z.ltb_lt; lia); reflexivity.
Qed.

(** *** The statements on [users] *)

Lemma tokens_getUserWithId_sql : tokens getUserWithId_sql = user_by_id_words.
Proof. vm_compute; reflexivity. Qed.

Lemma db_run_getUserWithId (ps : list jsval) (d : db) :
  db_run getUserWithId_sql ps d = (d, exec_user_by_id d ps).
Proof. unfold db_run; rewrite tokens_getUserWithId_sql; reflexivity. Qed.

Lemma as_int_str (z : Z) :
  (-2147483648 <= z < 2147483648)%Z -> as_int (Ok (pg_param (JStr (Z_to_string z)))) = Ok (Some z).
Proof. intros H; apply as_int_type_Z; exact H. Qed.

(** X1: when [id] is the id of a user, given as a number or as its
    decimal text, [getUserWithId] resolves to that user, logs nothing and
    leaves the database as it was (ids are unique, and the id is in the
    range of the [integer] column type, which every stored id is). *)
Theorem getUserWithId_found (d : db) (u : user) :
  (-2147483648 <= user_id u < 2147483648)%Z ->
  In u (db_users d) ->
  (forall u', In u' (db_users d) -> user_id u' = user_id u -> u' = u) ->
  getUserWithId _ db_run (JNum (user_id u)) d = (d, [], Resolved (ORow (RUser u))) /\
  getUserWithId _ db_run (JStr (Z_to_string (user_id u))) d
    = (d, [], Resolved (ORow (RUser u))).
Proof.
  intros R Hin Hu.
  destruct (filter_unique (fun u' => Z.eqb (user_id u') (user_id u)) (db_users d) u Hin
              (Z.eqb_refl _)) as [rest E].
  { intros y Hy Hf; apply Z.eqb_eq in Hf; auto. }
  split; unfold getUserWithId; run_promise; rewrite db_run_getUserWithId;
    unfold exec_user_by_id; cbv beta iota.
  - rewrite (as_int_num _ R), E; reflexivity.
  - rewrite (as_int_str _ R), E; reflexivity.
Qed.

Lemma getUserWithId_found_witness :
  let d := {| db_users := [{| user_id := 3; user_name := "Ada"; user_email := "ada@example.com";
                              user_password := "pw" |}];
              db_next_user_id := 4; db_properties := []; db_reviews := [] |} in
  let u := {| user_id := 3; user_name := "Ada"; user_email := "ada@example.com";
              user_password := "pw" |} in
  In u (db_users d) /\
  getUserWithId _ db_run (JStr "3") d = (d, [], Resolved (ORow (RUser u))).
Proof.
  intros d u.
  assert (R : (-2147483648 <= user_id u < 2147483648)%Z) by (cbn; lia).
  assert (Hin : In u (db_users d)) by (left; reflexivity).
  assert (Hu : forall u', In u' (db_users d) -> user_id u' = user_id u -> u' = u)
    by (intros u' [<- | []] _; reflexivity).
  split; [exact Hin |].
  exact (proj2 (getUserWithId_found d u R Hin Hu)).
Defined.



(** X3: [getUserWithEmail] matches the email exactly: a user it returns
    is in the database and has exactly the given email, and when emails
    are unique the user whose email is given is returned, with nothing
    logged and the database unchanged. *)
Theorem getUserWithEmail_exact (d : db) :
  (forall u, In u (db_users d) ->
     (forall u', In u' (db_users d) -> user_email u' = user_email u -> u' = u) ->
     getUserWithEmail _ db_run (JStr (user_email u)) d = (d, [], Resolved (ORow (RUser u)))) /\
  (forall e d' log r,
     getUserWithEmail _ db_run (JStr e) d = (d', log, Resolved (ORow r)) ->
     exists u, r = RUser u /\ In u (db_users d) /\ user_email u = e).
Proof.
  split.
  - intros u Hin Hu.
    destruct (filter_unique (fun u' => String.eqb (user_email u') (user_email u)) (db_users d) u
                Hin (String.eqb_refl _)) as [rest E].
    { intros y Hy Hf; apply String.eqb_eq in Hf; auto. }
    unfold getUserWithEmail; run_promise; rewrite db_run_getUserWithEmail;
      unfold exec_user_by_email; cbv beta iota; cbn [pg_param].
    rewrite E; reflexivity.
  - intros e d' log r.
    unfold getUserWithEmail; run_promise; rewrite db_run_getUserWithEmail;
      unfold exec_user_by_email; cbv beta iota; cbn [pg_param].
    destruct (filter (fun u => String.eqb (user_email u) e) (db_users d)) as [| u rest] eqn:F;
      intros H; [discriminate H |].
    injection H as _ _ <-.
    exists u; split; [reflexivity |].
    assert (Hu : In u (filter (fun u => String.eqb (user_email u) e) (db_users d)))
      by (rewrite F; left; reflexivity).
    apply filter_In in Hu as [Hu He]; apply String.eqb_eq in He; auto.
Qed.

Lemma getUserWithEmail_exact_witness :
  let u := {| user_id := 3; user_name := "Ada"; user_email := "ada@example.com";
              user_password := "pw" |} in
  let d := {| db_users := [u]; db_next_user_id := 4; db_properties := []; db_reviews := [] |} in
  getUserWithEmail _ db_run (JStr "ada@example.com") d = (d, [], Resolved (ORow (RUser u))).
Proof.
  intros u d.
  assert (Hin : In u (db_users d)) by (left; reflexivity).
  assert (Hu : forall u', In u' (db_users d) -> user_email u' = user_email u -> u' = u)
    by (intros u' [<- | []] _; reflexivity).
  exact (proj1 (getUserWithEmail_exact d) u Hin Hu).
Defined.

(** X4: when no user has the email and every id is below the next
    serial value, [addUser] stores and returns a user with that next id
    and the name, email and password exactly as given (the password is
    stored as it is sent); [getUserWithId] with that id then returns the
    same user, the next id grows by one and every id stays below it. *)
Theorem addUser_assigns_next_id (d : db) (n p e : string) :
  existsb (fun u => String.eqb (user_email u) e) (db_users d) = false ->
  (forall u, In u (db_users d) -> (user_id u < db_next_user_id d)%Z) ->
  let u := {| user_id := db_next_user_id d; user_name := n; user_email := e;
              user_password := p |} in
  exists d1,
    addUser _ db_run {| name := JStr n; password := JStr p; email := JStr e |} d
      = (d1, [], Resolved (ORow (RUser u))) /\
    ((-2147483648 <= db_next_user_id d < 2147483648)%Z ->
     getUserWithId _ db_run (JNum (db_next_user_id d)) d1 = (d1, [], Resolved (ORow (RUser u)))) /\
    db_next_user_id d1 = (db_next_user_id d + 1)%Z /\
    (forall u', In u' (db_users d1) -> (user_id u' < db_next_user_id d1)%Z).
Proof.
  intros He Hlt u.
  unfold addUser; run_promise; rewrite db_run_addUser.
  cbv [exec_insert_user pg_param name password email]; rewrite He.
  eexists; split; [reflexivity |].
  split; [| split; [reflexivity |]].
  - intros R; unfold getUserWithId; run_promise; rewrite db_run_getUserWithId;
      unfold exec_user_by_id; cbv beta iota.
    rewrite (as_int_num _ R); cbn [db_users].
    rewrite filter_app, filter_none.
    + cbn; rewrite Z.eqb_refl; reflexivity.
    + apply existsb_none; intros x Hx; apply Z.eqb_neq; specialize (Hlt x Hx); lia.
  - cbn [db_users db_next_user_id]; intros u' Hu'.
    apply in_app_or in Hu' as [Hu' | [<- | []]].
    + specialize (Hlt u' Hu'); lia.
    + cbn; lia.
Qed.

Lemma addUser_assigns_next_id_witness :
  existsb (fun u => String.eqb (user_email u) "ada@example.com") (db_users sample_db) = false /\
  exists d1,
    addUser _ db_run {| name := JStr "Ada"; password := JStr "pw";
                        email := JStr "ada@example.com" |} sample_db
      = (d1, [], Resolved (ORow (RUser {| user_id := 1; user_name := "Ada";
                                          user_email := "ada@example.com";
                                          user_password := "pw" |}))) /\
    getUserWithId _ db_run (JNum 1) d1
      = (d1, [], Resolved (ORow (RUser {| user_id := 1; user_name := "Ada";
                                          user_email := "ada@example.com";
                                          user_password := "pw" |}))).
Proof.
  assert (H1 : existsb (fun u => String.eqb (user_email u) "ada@example.com")
                 (db_users sample_db) = false) by reflexivity.
  assert (H2 : forall u, In u (db_users sample_db) -> (user_id u < db_next_user_id sample_db)%Z)
    by (intros u []).
  split; [exact H1 |].
  destruct (addUser_assigns_next_id sample_db "Ada" "pw" "ada@example.com" H1 H2)
    as [d1 [A [G _]]].
  exists d1; split; [exact A | apply G; cbn; lia].
Defined.

(** *** [getAllProperties] on the server *)

Lemma build_only_owner (v limit : jsval) :
  truthy v = true ->
  getAllProperties_build (only_owner v) limit
    = (fst (getAllProperties_build (only_owner (JNum 1)) JUndef),
       [JStr (to_string v); match limit with JUndef => JNum 10 | l => l end]).
Proof.
  intros T; unfold getAllProperties_build, only_owner;
    cbn [owner_id city minimum_price_per_night maximum_price_per_night minimum_rating].
  rewrite T; reflexivity.
Qed.

Lemma parse_only_owner :
  parse_props (tokens (fst (getAllProperties_build (only_owner (JNum 1)) JUndef)))
  = Some {| pq_conds := [CondOwner 1]; pq_having := None; pq_limit := 2 |}.
Proof. vm_compute; reflexivity. Qed.

Lemma bind_only_owner (k n : Z) :
  (-2147483648 <= k < 2147483648)%Z -> (0 <= n <= 9007199254740991)%Z ->
  bind_props [JStr (Z_to_string k); JNum n]
    {| pq_conds := [CondOwner 1]; pq_having := None; pq_limit := 2 |}
  = Ok {| bq_conds := [BOwner (Some k)]; bq_having := None; bq_limit := Some (Z.to_nat n) |}.
Proof.
  intros Rk Rn;
  unfold bind_props;
    cbn [max_placeholder pq_conds pq_having pq_limit fold_right map cond_index length
         Nat.max Nat.eqb negb bind_conds].
  unfold bind_cond; rewrite (param_nth [JStr (Z_to_string k); JNum n] 0 _ eq_refl).
  rewrite (as_int_str _ Rk); cbn [res_map].
  rewrite (bind_limit_safe [JStr (Z_to_string k); JNum n] 1 n eq_refl Rn).
  reflexivity.
Qed.

(** X5: the statement of [getAllProperties] parses unless [owner_id] is
    combined with a WHERE filter (city, minimum or maximum price); in
    that case, for every database and limit, the server rejects it as a
    syntax error, the error is logged and the promise resolves to
    undefined. *)
Theorem getAllProperties_owner_with_where_filter_fails (o : options) (limit : jsval) (d : db) :
  truthy (owner_id o) = true ->
  (truthy (city o) || truthy (minimum_price_per_night o)
   || truthy (maximum_price_per_night o))%bool = true ->
  getAllProperties _ db_run o limit d = (d, ["syntax error"], Resolved OUndef).
Proof.
  intros T1 T2.
  pose proof (build_syntax o limit (snd (getAllProperties_build o limit)) d
                (build_parse_none o limit T1 T2)) as E.
  unfold getAllProperties.
  destruct (getAllProperties_build o limit) as [q ps]; simpl fst in E; simpl snd in E.
  run_promise; rewrite E; reflexivity.
Qed.

Lemma getAllProperties_owner_with_where_filter_fails_witness :
  let o := {| owner_id := JStr "7"; city := JUndef; minimum_price_per_night := JStr "50";
              maximum_price_per_night := JUndef; minimum_rating := JUndef |} in
  truthy (owner_id o) = true /\
  (truthy (city o) || truthy (minimum_price_per_night o)
   || truthy (maximum_price_per_night o))%bool = true /\
  getAllProperties _ db_run o JUndef sample_db = (sample_db, ["syntax error"], Resolved OUndef).
Proof.
  intros o.
  assert (T1 : truthy (owner_id o) = true) by reflexivity.
  assert (T2 : (truthy (city o) || truthy (minimum_price_per_night o)
                || truthy (maximum_price_per_night o))%bool = true) by reflexivity.
  split; [exact T1 | split; [exact T2 |]].
  exact (getAllProperties_owner_with_where_filter_fails o JUndef sample_db T1 T2).
Defined.

(** X6: with only [owner_id] set to a non-zero number [k] of the
    [integer] range (the My Listings page) and a limit [n] that is a
    non-negative safe integer (so within the [bigint] range),
    [getAllProperties] resolves to at most [n] properties, all owned by
    [k]; when the database has at most [n] properties, every property of
    [k] that has a review is listed, with the average of its reviews. *)
Theorem getAllProperties_owner_listing (d : db) (k n : Z) :
  k <> 0%Z -> (-2147483648 <= k < 2147483648)%Z -> (0 <= n <= 9007199254740991)%Z ->
  exists gs,
    getAllProperties _ db_run (only_owner (JNum k)) (JNum n) d
      = (d, [], Resolved (ORows (map (fun g => RProp (fst g) (snd g)) gs))) /\
    (length gs <= Z.to_nat n)%nat /\
    (forall p a, In (p, a) gs -> prop_owner_id p = k /\ In p (db_properties d)) /\
    ((Z.of_nat (length (db_properties d)) <= n)%Z ->
     forall p, In p (db_properties d) -> prop_owner_id p = k -> reviews_of d p <> [] ->
       In (p, average (reviews_of d p)) gs).
Proof.
  intros Hk Rk Rn.
  assert (T : truthy (JNum k) = true)
    by (simpl; rewrite (proj2 (Z.eqb_neq k 0) Hk); reflexivity).
  unfold getAllProperties; rewrite (build_only_owner _ _ T); cbn [to_string].
  run_promise; unfold db_run at 1; rewrite parse_only_owner.
  unfold exec_props; rewrite (bind_only_owner _ _ Rk Rn).
  eexists; split; [reflexivity |].
  cbn [apply_limit bq_limit bq_having bq_conds].
  split; [rewrite length_firstn; lia | split].
  - intros p a Hin.
    apply in_apply_limit with (l := Some (Z.to_nat n)), in_sort_by_cost, filter_In in Hin
      as [Hin _].
    apply in_groups_iff in Hin as [Hp [F _]].
    cbn in F; rewrite andb_true_r in F; apply Z.eqb_eq in F; auto.
  - intros Hn p Hp Ho R.
    rewrite firstn_all2.
    + apply (Permutation_in _ (Permutation_sym (sort_by_cost_perm _))), filter_In.
      split; [| reflexivity].
      apply in_groups_iff; repeat split; auto.
      cbn; rewrite Ho, Z.eqb_refl; reflexivity.
    + rewrite (Permutation_length (sort_by_cost_perm _)).
      pose proof (length_groups d [BOwner (Some k)]).
      pose proof (filter_length_le (having_holds None) (groups d [BOwner (Some k)])).
      lia.
Qed.

Lemma getAllProperties_owner_listing_witness :
  (7 <> 0)%Z /\
  exists gs,
    getAllProperties _ db_run (only_owner (JNum 7)) (JNum 5) sample_db
      = (sample_db, [], Resolved (ORows (map (fun g => RProp (fst g) (snd g)) gs))) /\
    (forall p a, In (p, a) gs -> prop_owner_id p = 7%Z /\ In p (db_properties sample_db)).
Proof.
  assert (H : (7 <> 0)%Z) by lia.
  assert (Rk : (-2147483648 <= 7 < 2147483648)%Z) by lia.
  assert (Rn : (0 <= 5 <= 9007199254740991)%Z) by lia.
  split; [exact H |].
  destruct (getAllProperties_owner_listing sample_db 7 5 H Rk Rn) as [gs [E [_ [O _]]]].
  exists gs; split; [exact E | exact O].
Defined.

(** X7: every row [getAllProperties] resolves to is a property of the
    database that has at least one review, with [average_rating] the
    mean of its reviews; a property without reviews is never listed.
    A call that resolves to rows logs nothing and leaves the database as
    it was. *)
Theorem getAllProperties_rows_are_reviewed (o : options) (limit : jsval) (d d' : db) log rows :
  getAllProperties _ db_run o limit d = (d', log, Resolved (ORows rows)) ->
  d' = d /\ log = [] /\
  forall r, In r rows ->
    exists p, r = RProp p (average (reviews_of d p)) /\ In p (db_properties d) /\
              reviews_of d p <> [].
Proof.
  intros H.
  destruct (getAllProperties_success o limit d d' log rows H) as [pq [b [_ [_ [-> [-> ->]]]]]].
  split; [reflexivity | split; [reflexivity |]].
  intros r Hin.
  apply in_run_props_iff in Hin as [p [a [-> Hin]]].
  apply in_apply_limit, in_sort_by_cost, filter_In in Hin as [Hin _].
  apply in_groups_iff in Hin as [Hp [_ [R ->]]].
  exists p; auto.
Qed.

Lemma getAllProperties_rows_are_reviewed_witness :
  getAllProperties _ db_run no_options JUndef sample_db
    = (sample_db, [], Resolved (ORows [RProp vancouver_lower (5 # 1);
                                       RProp vancouver_upper (7 # 2)])) /\
  forall r, In r [RProp vancouver_lower (5 # 1); RProp vancouver_upper (7 # 2)] ->
    exists p, r = RProp p (average (reviews_of sample_db p)) /\
              In p (db_properties sample_db) /\ reviews_of sample_db p <> [].
Proof.
  assert (E : getAllProperties _ db_run no_options JUndef sample_db
              = (sample_db, [], Resolved (ORows [RProp vancouver_lower (5 # 1);
                                                 RProp vancouver_upper (7 # 2)])))
    by (vm_compute; reflexivity).
  split; [exact E |].
  exact (proj2 (proj2 (getAllProperties_rows_are_reviewed no_options JUndef sample_db
                         sample_db [] _ E))).
Defined.

(** X8: when [minimum_rating] is truthy and its text is a number [q],
    every property [getAllProperties] resolves to has
    [average_rating >= q], whatever the other options. *)
Theorem getAllProperties_minimum_rating_bound (o : options) (limit : jsval) (q : Q)
    (d d' : db) log rows :
  truthy (minimum_rating o) = true ->
  pg_numeric (to_string (minimum_rating o)) = Some q ->
  getAllProperties _ db_run o limit d = (d', log, Resolved (ORows rows)) ->
  forall p a, In (RProp p a) rows -> (q <= a)%Q.
Proof.
  intros T N H p a Hin.
  destruct (getAllProperties_success o limit d d' log rows H) as [pq [b [P [B [-> _]]]]].
  destruct (build_rating o limit pq P T) as [i [Hh Hn]].
  pose proof (bind_props_having _ _ _ _ B Hh) as Hb.
  rewrite (param_nth _ _ _ Hn) in Hb.
  unfold as_numeric in Hb; cbn [pg_param] in Hb; rewrite N in Hb.
  injection Hb as Hb.
  apply in_run_props_iff in Hin as [p' [a' [E Hin]]]; injection E as <- <-.
  apply in_apply_limit, in_sort_by_cost, filter_In in Hin as [_ Hh2].
  rewrite <- Hb in Hh2; apply Qle_bool_iff; exact Hh2.
Qed.

Lemma getAllProperties_minimum_rating_bound_witness :
  let o := {| owner_id := JUndef; city := JUndef; minimum_price_per_night := JUndef;
              maximum_price_per_night := JUndef; minimum_rating := JStr "3.5" |} in
  truthy (minimum_rating o) = true /\
  pg_numeric (to_string (minimum_rating o)) = Some (35 # 10) /\
  getAllProperties _ db_run o JUndef sample_db
    = (sample_db, [], Resolved (ORows [RProp vancouver_lower (5 # 1);
                                       RProp vancouver_upper (7 # 2)])) /\
  (35 # 10 <= 7 # 2)%Q.
Proof.
  intros o.
  assert (T : truthy (minimum_rating o) = true) by reflexivity.
  assert (N : pg_numeric (to_string (minimum_rating o)) = Some (35 # 10)) by reflexivity.
  assert (E : getAllProperties _ db_run o JUndef sample_db
              = (sample_db, [], Resolved (ORows [RProp vancouver_lower (5 # 1);
                                                 RProp vancouver_upper (7 # 2)])))
    by (vm_compute; reflexivity).
  split; [exact T | split; [exact N | split; [exact E |]]].
  exact (getAllProperties_minimum_rating_bound o JUndef (35 # 10) sample_db sample_db [] _ T N E
           vancouver_upper (7 # 2) (or_intror (or_introl eq_refl))).
Defined.

(** X9: whatever the options, when [getAllProperties] with a limit [n]
    resolves to rows, they are at most [n] properties in non-decreasing
    [cost_per_night]. *)
Theorem getAllProperties_sorted_bounded (o : options) (n : nat) (d d' : db) log rows :
  getAllProperties _ db_run o (JNum (Z.of_nat n)) d = (d', log, Resolved (ORows rows)) ->
  exists gs, rows = map (fun g => RProp (fst g) (snd g)) gs /\
             (length gs <= n)%nat /\ Sorted cost_le gs.
Proof.
  intros H.
  destruct (getAllProperties_success o _ d d' log rows H) as [pq [b [P [B [-> _]]]]].
  destruct (build_limit o _ pq P) as [i [Hl Hn]].
  pose proof (bind_props_limit _ _ _ B) as Hb.
  rewrite Hl in Hb; apply (bind_limit_nat_ok _ i n _ Hn) in Hb.
  unfold run_props; rewrite Hb; cbn [apply_limit].
  eexists; split; [reflexivity | split].
  - rewrite length_firstn; lia.
  - apply firstn_sorted, sort_by_cost_sorted.
Qed.

Lemma getAllProperties_sorted_bounded_witness :
  getAllProperties _ db_run city_van (JNum (Z.of_nat 5)) sample_db
    = (sample_db, [], Resolved (ORows [RProp vancouver_upper (7 # 2)])) /\
  exists gs, [RProp vancouver_upper (7 # 2)] = map (fun g => RProp (fst g) (snd g)) gs /\
             (length gs <= 5)%nat /\ Sorted cost_le gs.
Proof.
  assert (E : getAllProperties _ db_run city_van (JNum (Z.of_nat 5)) sample_db
              = (sample_db, [], Resolved (ORows [RProp vancouver_upper (7 # 2)])))
    by (vm_compute; reflexivity).
  split; [exact E |].
  exact (getAllProperties_sorted_bounded city_van 5 sample_db sample_db [] _ E).
Defined.

(** *** Reservations *)

Lemma tokens_getAllReservations_sql : tokens getAllReservations_sql = reservations_words.
Proof. vm_compute; reflexivity. Qed.

Lemma store_run_getAllReservations (ps : list jsval) (s : store) :
  store_run getAllReservations_sql ps s = (s, exec_reservations s ps).
Proof. unfold store_run; rewrite tokens_getAllReservations_sql; reflexivity. Qed.

Lemma in_resv_groups (s : store) (g : Z) (r : reservation) (p : property) (a : Q) :
  In (r, p, a) (resv_groups s (Some g)) <->
  In r (st_reservations s) /\ resv_guest_id r = g /\ In p (db_properties (st_db s)) /\
  resv_property_id r = prop_id p /\ reviews_of (st_db s) p <> [] /\
  a = average (reviews_of (st_db s) p).
Proof.
  unfold resv_groups; rewrite in_flat_map; split.
  - intros [r' [Hr' H]].
    destruct (Z.eqb (resv_guest_id r') g) eqn:E1; [| destruct H].
    rewrite in_flat_map in H; destruct H as [p' [Hp' H]].
    destruct (Z.eqb (resv_property_id r') (prop_id p')) eqn:E2; [| destruct H].
    destruct (reviews_of (st_db s) p') as [| x xs] eqn:R; [destruct H |].
    destruct H as [H | []]; injection H as <- <- <-.
    apply Z.eqb_eq in E1, E2; rewrite R.
    repeat split; auto; discriminate.
  - intros [Hr [Eg [Hp [Ep [R A]]]]].
    exists r; split; [exact Hr |].
    rewrite (proj2 (Z.eqb_eq _ _) Eg), in_flat_map.
    exists p; split; [exact Hp |].
    rewrite (proj2 (Z.eqb_eq _ _) Ep).
    destruct (reviews_of (st_db s) p) as [| x xs]; [congruence |].
    left; subst a; reflexivity.
Qed.

Lemma length_resv_groups (s : store) (g : Z) :
  NoDup (map prop_id (db_properties (st_db s))) ->
  (length (resv_groups s (Some g)) <= length (st_reservations s))%nat.
Proof.
  intros Hn; unfold resv_groups; apply flat_map_length_le; intros r _.
  destruct (Z.eqb (resv_guest_id r) g); [| simpl; lia].
  apply (flat_map_key_le_one _ prop_id (resv_property_id r)); [exact Hn | |].
  - intros x Hx; rewrite (proj2 (Z.eqb_neq _ _)); [reflexivity | congruence].
  - intros x; destruct (Z.eqb (resv_property_id r) (prop_id x));
      [destruct (reviews_of (st_db s) x); simpl; lia | simpl; lia].
Qed.

Lemma getAllReservations_result (s : store) (g n : Z) :
  (-2147483648 <= g < 2147483648)%Z -> (0 <= n <= 9007199254740991)%Z ->
  getAllReservations _ store_run (JNum g) (JNum n) s
  = (s, [], Resolved (ORows (map resv_row
                               (firstn (Z.to_nat n) (sort_by_start (resv_groups s (Some g))))))).
Proof.
  intros Rg Rn.
  unfold getAllReservations; cbv beta iota.
  run_promise; rewrite store_run_getAllReservations.
  unfold exec_reservations; cbv beta iota.
  rewrite (as_int_num _ Rg), (bind_limit_safe [JNum g; JNum n] 1 n eq_refl Rn).
  reflexivity.
Qed.

Lemma getAllProperties_no_options_eq (v : jsval) (d : db) :
  getAllProperties _ db_run no_options v d
  = match bind_limit [match v with JUndef => JNum 10 | l => l end] 1 with
    | Ok l => (d, [], Resolved (ORows (map (fun g => RProp (fst g) (snd g))
                 (apply_limit l (sort_by_cost (filter (having_holds None) (groups d [])))))))
    | Err m => (d, [m], Resolved OUndef)
    end.
Proof.
  unfold getAllProperties.
  change (getAllProperties_build no_options v)
    with (fst (getAllProperties_build no_options v),
          [match v with JUndef => JNum 10 | l => l end]).
  rewrite build_no_options.
  run_promise; unfold db_run at 1; rewrite parse_no_options.
  unfold exec_props, bind_props.
  cbn [max_placeholder pq_conds pq_having pq_limit fold_right map length Nat.max
       Nat.eqb negb bind_conds].
  destruct (bind_limit _ 1) as [l | m]; reflexivity.
Qed.

(** X10: [getAllReservations] for a guest id [g] of the [integer] range
    and a limit [n] that is a non-negative safe integer (so within the
    [bigint] range) resolves, without logging or changing the server
    state, to at most
    [n] reservations in non-decreasing [start_date], each a reservation
    of guest [g] joined with its property, which has at least one
    review, and [average_rating] the mean of that property's reviews;
    a reservation of a property without reviews is never returned. *)
Theorem getAllReservations_rows (s : store) (g n : Z) :
  (-2147483648 <= g < 2147483648)%Z -> (0 <= n <= 9007199254740991)%Z ->
  exists xs,
    getAllReservations _ store_run (JNum g) (JNum n) s
      = (s, [], Resolved (ORows (map resv_row xs))) /\
    (length xs <= Z.to_nat n)%nat /\ Sorted start_le xs /\
    forall r p a, In (r, p, a) xs ->
      resv_guest_id r = g /\ In r (st_reservations s) /\ In p (db_properties (st_db s)) /\
      resv_property_id r = prop_id p /\ reviews_of (st_db s) p <> [] /\
      a = average (reviews_of (st_db s) p).
Proof.
  intros Rg Rn; rewrite (getAllReservations_result s g n Rg Rn).
  eexists; split; [reflexivity | split; [| split]].
  - rewrite length_firstn; lia.
  - apply firstn_sorted, sort_by_start_sorted.
  - intros r p a Hin.
    apply (in_apply_limit (Some (Z.to_nat n))) in Hin.
    apply (Permutation_in _ (sort_by_start_perm _)), in_resv_groups in Hin.
    intuition.
Qed.

Lemma getAllReservations_rows_witness :
  (-2147483648 <= 5 < 2147483648)%Z /\ (0 <= 3 <= 9007199254740991)%Z /\
  exists xs,
    getAllReservations _ store_run (JNum 5) (JNum 3) {| st_db := sample_db; st_reservations := [] |}
      = ({| st_db := sample_db; st_reservations := [] |}, [], Resolved (ORows (map resv_row xs))) /\
    (length xs <= 3)%nat.
Proof.
  assert (Rg : (-2147483648 <= 5 < 2147483648)%Z) by lia.
  assert (Rn : (0 <= 3 <= 9007199254740991)%Z) by lia.
  split; [exact Rg | split; [exact Rn |]].
  destruct (getAllReservations_rows {| st_db := sample_db; st_reservations := [] |} 5 3 Rg Rn)
    as [xs [E [L _]]].
  exists xs; split; [exact E | exact L].
Defined.

(** X11: when property ids are unique, [g] is in the [integer] range,
    [n] is a safe integer and the table has at most [n] reservations,
    every reservation of guest [g] whose property has a
    review is among the rows [getAllReservations] resolves to, with the
    mean rating of that property. *)
Theorem getAllReservations_complete (s : store) (g n : Z) (r : reservation)
    (p : property) :
  NoDup (map prop_id (db_properties (st_db s))) ->
  (-2147483648 <= g < 2147483648)%Z -> (n <= 9007199254740991)%Z ->
  (Z.of_nat (length (st_reservations s)) <= n)%Z ->
  In r (st_reservations s) -> resv_guest_id r = g ->
  In p (db_properties (st_db s)) -> resv_property_id r = prop_id p ->
  reviews_of (st_db s) p <> [] ->
  exists rows,
    getAllReservations _ store_run (JNum g) (JNum n) s
      = (s, [], Resolved (ORows rows)) /\
    In (RResv r p (average (reviews_of (st_db s) p))) rows.
Proof.
  intros Hn Rg Rn Hl Hr Hg Hp Hid Hrev.
  rewrite (getAllReservations_result s g n Rg ltac:(lia)).
  eexists; split; [reflexivity |].
  rewrite firstn_all2.
  - apply (in_map resv_row _ (r, p, average (reviews_of (st_db s) p))).
    apply (Permutation_in _ (Permutation_sym (sort_by_start_perm _))), in_resv_groups.
    repeat split; auto.
  - rewrite (Permutation_length (sort_by_start_perm _)).
    pose proof (length_resv_groups s g Hn); lia.
Qed.

Lemma getAllReservations_complete_witness :
  let r := {| resv_id := 1; resv_guest_id := 5; resv_property_id := 1;
              resv_start_date := 100; resv_end_date := 104 |} in
  let s := {| st_db := sample_db; st_reservations := [r] |} in
  NoDup (map prop_id (db_properties (st_db s))) /\
  exists rows,
    getAllReservations _ store_run (JNum 5) (JNum 10) s
      = (s, [], Resolved (ORows rows)) /\
    In (RResv r vancouver_upper (average (reviews_of (st_db s) vancouver_upper))) rows.
Proof.
  intros r s.
  assert (Hn : NoDup (map prop_id (db_properties (st_db s))))
    by (repeat constructor; simpl; intuition discriminate).
  split; [exact Hn |].
  apply (getAllReservations_complete s 5 10 r vancouver_upper Hn); simpl; auto; try lia.
  discriminate.
Defined.

(** X12: a negative limit (a safe integer, so within the [bigint] range)
    is refused by the server: [getAllProperties] without options logs
    "LIMIT must not be negative" and resolves to undefined,
    [getAllReservations] for a guest id of the [integer] range logs the
    same and resolves to null; neither changes the server state. *)
Theorem negative_limit_is_refused (d : db) (s : store) (z g : Z) :
  (-9007199254740991 <= z < 0)%Z -> (-2147483648 <= g < 2147483648)%Z ->
  getAllProperties _ db_run no_options (JNum z) d
    = (d, ["LIMIT must not be negative"], Resolved OUndef) /\
  getAllReservations _ store_run (JNum g) (JNum z) s
    = (s, ["LIMIT must not be negative"], Resolved ONull).
Proof.
  intros Hz Rg; split.
  - rewrite getAllProperties_no_options_eq, (bind_limit_negative [JNum z] 0 z eq_refl Hz).
    reflexivity.
  - unfold getAllReservations; cbv beta iota.
    run_promise; rewrite store_run_getAllReservations.
    unfold exec_reservations; cbv beta iota.
    rewrite (as_int_num _ Rg), (bind_limit_negative [JNum g; JNum z] 1 z eq_refl Hz).
    reflexivity.
Qed.

Lemma negative_limit_is_refused_witness :
  (-9007199254740991 <= -1 < 0)%Z /\
  getAllReservations _ store_run (JNum 5) (JNum (-1)) {| st_db := sample_db; st_reservations := [] |}
    = ({| st_db := sample_db; st_reservations := [] |}, ["LIMIT must not be negative"],
       Resolved ONull).
Proof.
  assert (H : (-9007199254740991 <= -1 < 0)%Z) by lia.
  assert (Rg : (-2147483648 <= 5 < 2147483648)%Z) by lia.
  split; [exact H |].
  exact (proj2 (negative_limit_is_refused sample_db
                  {| st_db := sample_db; st_reservations := [] |} (-1) 5 H Rg)).
Defined.

(** *** The server state after the reads *)

Lemma store_run_db (q : string) (ps : list jsval) (s : store) :
  words_eqb (tokens q) reservations_words = false ->
  fst (db_run q ps (st_db s)) = st_db s ->
  fst (store_run q ps s) = s.
Proof.
  intros W D; unfold store_run; rewrite W.
  destruct (db_run q ps (st_db s)) as [d' r]; simpl in *; subst; destruct s; reflexivity.
Qed.

Lemma db_run_build_same (o : options) (limit : jsval) (ps : list jsval) (d : db) :
  fst (db_run (fst (getAllProperties_build o limit)) ps d) = d.
Proof.
  destruct (parse_props (tokens (fst (getAllProperties_build o limit)))) as [pq |] eqn:P.
  - unfold db_run; rewrite P; reflexivity.
  - rewrite (build_syntax o limit ps d P); reflexivity.
Qed.

(** X13: the read operations never change the server state:
    [getUserWithEmail], [getUserWithId], [getAllProperties] and
    [getAllReservations] leave the users, properties, reviews and
    reservations as they were, whatever their arguments. *)
Theorem read_operations_leave_store_unchanged (s : store) :
  (forall e, fst (fst (getUserWithEmail _ store_run e s)) = s) /\
  (forall i, fst (fst (getUserWithId _ store_run i s)) = s) /\
  (forall o limit, fst (fst (getAllProperties _ store_run o limit s)) = s) /\
  (forall g limit, fst (fst (getAllReservations _ store_run g limit s)) = s).
Proof.
  split; [| split; [| split]].
  - intros e.
    assert (S1 : fst (store_run getUserWithEmail_sql [e] s) = s).
    { apply store_run_db; [vm_compute; reflexivity |].
      rewrite db_run_getUserWithEmail; reflexivity. }
    unfold getUserWithEmail; run_promise.
    destruct (store_run getUserWithEmail_sql [e] s) as [s1 [[| r rows] | m]];
      simpl in S1; subst; reflexivity.
  - intros i.
    assert (S1 : fst (store_run getUserWithId_sql [i] s) = s).
    { apply store_run_db; [vm_compute; reflexivity |].
      rewrite db_run_getUserWithId; reflexivity. }
    unfold getUserWithId; run_promise.
    destruct (store_run getUserWithId_sql [i] s) as [s1 [[| r rows] | m]];
      simpl in S1; subst; reflexivity.
  - intros o limit.
    assert (S1 : forall ps, fst (store_run (fst (getAllProperties_build o limit)) ps s) = s).
    { intros ps; apply store_run_db;
        [apply build_not_reservations | apply db_run_build_same]. }
    unfold getAllProperties.
    destruct (getAllProperties_build o limit) as [q ps]; specialize (S1 ps); simpl fst in S1.
    run_promise.
    destruct (store_run q ps s) as [s1 [rows | m]]; simpl in S1; subst; reflexivity.
  - intros g limit.
    unfold getAllReservations; run_promise; rewrite store_run_getAllReservations.
    destruct (exec_reservations s _) as [rows | m]; reflexivity.
Qed.

(** *** The statement of [addProperty] *)

(** X14: [addProperty] sends one INSERT into [properties] whose column
    list has no repeated name and whose VALUES list is [$1 .. $n], one
    placeholder per column; the value it binds to the [i]-th placeholder
    is [property[c]] for the [i]-th column [c], so a key missing from the
    object is sent as undefined. *)
Theorem addProperty_columns_match_values (property : string -> jsval) :
  exists q vs cols ks,
    fst (fst (addProperty _ recording_pool property [])) = [(q, vs)] /\
    read_insert (tokens q) = Some ("properties", cols, ks) /\
    NoDup cols /\ ks = seq 1 (length cols) /\ length vs = length cols /\
    (forall i c, nth_error cols i = Some c -> nth_error vs i = Some (property c)).
Proof.
  exists addProperty_sql, (map property propertyValues), propertyValues,
    (seq 1 (length propertyValues)).
  split; [unfold addProperty; run_promise; reflexivity |].
  split; [vm_compute; reflexivity |].
  split; [repeat constructor; simpl; intuition discriminate |].
  split; [reflexivity |].
  split; [apply length_map |].
  intros i c H; rewrite nth_error_map, H; reflexivity.
Qed.

End Extras.

(** * The limit and the city filter, end to end *)

Module EndToEnd.
Import Build Ops Pg Store Reading Reading2 Reading3 Facts Extras.

Lemma build_only_city (v limit : jsval) :
  truthy v = true ->
  getAllProperties_build (only_city v) limit
    = (fst (getAllProperties_build (only_city (JStr "x")) JUndef),
       [JStr ("%" ++ to_string v ++ "%"); match limit with JUndef => JNum 10 | l => l end]).
Proof.
  intros T; unfold getAllProperties_build, only_city;
    cbn [owner_id city minimum_price_per_night maximum_price_per_night minimum_rating].
  rewrite T; reflexivity.
Qed.

Lemma parse_only_city :
  parse_props (tokens (fst (getAllProperties_build (only_city (JStr "x")) JUndef)))
  = Some {| pq_conds := [CondCity 1]; pq_having := None; pq_limit := 2 |}.
Proof. vm_compute; reflexivity. Qed.

Lemma bind_only_city (pat : string) (n : Z) :
  (0 <= n <= 9007199254740991)%Z ->
  bind_props [JStr pat; JNum n]
    {| pq_conds := [CondCity 1]; pq_having := None; pq_limit := 2 |}
  = Ok {| bq_conds := [BCity (Some pat)]; bq_having := None; bq_limit := Some (Z.to_nat n) |}.
Proof.
  intros Rn; unfold bind_props;
    cbn [max_placeholder pq_conds pq_having pq_limit fold_right map cond_index length
         Nat.max Nat.eqb negb bind_conds].
  unfold bind_cond; rewrite (param_nth [JStr pat; JNum n] 0 _ eq_refl); cbn [pg_param res_map].
  rewrite (bind_limit_safe [JStr pat; JNum n] 1 n eq_refl Rn).
  reflexivity.
Qed.

(** C7 (a negative limit gives no list): without options and with the
    limit [-1], the server refuses the LIMIT, the error is logged and the
    promise resolves to undefined, not to a list. *)
Lemma getAllProperties_negative_limit_undefined :
  getAllProperties _ db_run no_options (JNum (-1)) sample_db
    = (sample_db, ["LIMIT must not be negative"], Resolved OUndef).
Proof. vm_compute; reflexivity. Qed.

(** C7 amended: without options, for every database, a limit [n] that is
    a non-negative safe integer gives at most [n] rows in non-decreasing
    [cost_per_night], with nothing logged and the database unchanged; an
    absent limit gives at most 10 such rows; a negative safe integer
    limit is refused: "LIMIT must not be negative" is logged and the
    promise resolves to undefined. *)
Theorem getAllProperties_no_options_limit (d : db) :
  (forall n : Z, (0 <= n <= 9007199254740991)%Z ->
     exists gs,
       getAllProperties _ db_run no_options (JNum n) d
         = (d, [], Resolved (ORows (map (fun g => RProp (fst g) (snd g)) gs))) /\
       (Z.of_nat (length gs) <= n)%Z /\ Sorted cost_le gs) /\
  (exists gs,
     getAllProperties _ db_run no_options JUndef d
       = (d, [], Resolved (ORows (map (fun g => RProp (fst g) (snd g)) gs))) /\
     (length gs <= 10)%nat /\ Sorted cost_le gs) /\
  (forall z : Z, (-9007199254740991 <= z < 0)%Z ->
     getAllProperties _ db_run no_options (JNum z) d
       = (d, ["LIMIT must not be negative"], Resolved OUndef)).
Proof.
  split; [| split].
  - intros n Rn.
    rewrite getAllProperties_no_options_eq, (bind_limit_safe [JNum n] 0 n eq_refl Rn).
    cbn [apply_limit].
    eexists; split; [reflexivity | split].
    + rewrite length_firstn; lia.
    + apply firstn_sorted, sort_by_cost_sorted.
  - rewrite getAllProperties_no_options_eq,
      (bind_limit_safe [JNum 10] 0 10 eq_refl ltac:(lia)).
    cbn [apply_limit].
    eexists; split; [reflexivity | split].
    + rewrite length_firstn; lia.
    + apply firstn_sorted, sort_by_cost_sorted.
  - intros z Hz.
    rewrite getAllProperties_no_options_eq, (bind_limit_negative [JNum z] 0 z eq_refl Hz).
    reflexivity.
Qed.

Lemma getAllProperties_no_options_limit_witness :
  (0 <= 1 <= 9007199254740991)%Z /\
  (exists gs,
     getAllProperties _ db_run no_options (JNum 1) sample_db
       = (sample_db, [], Resolved (ORows (map (fun g => RProp (fst g) (snd g)) gs))) /\
     (Z.of_nat (length gs) <= 1)%Z /\ Sorted cost_le gs) /\
  (-9007199254740991 <= -3 < 0)%Z /\
  getAllProperties _ db_run no_options (JNum (-3)) sample_db
    = (sample_db, ["LIMIT must not be negative"], Resolved OUndef).
Proof.
  assert (R1 : (0 <= 1 <= 9007199254740991)%Z) by lia.
  assert (R2 : (-9007199254740991 <= -3 < 0)%Z) by lia.
  split; [exact R1 |].
  split; [exact (proj1 (getAllProperties_no_options_limit sample_db) 1%Z R1) |].
  split; [exact R2 |].
  exact (proj2 (proj2 (getAllProperties_no_options_limit sample_db)) (-3)%Z R2).
Defined.

(** C4 amended: the city parameter is [%city%] and the filter is LIKE,
    which is case-sensitive.  A city text [s] without [%], [_] or
    backslash matches exactly the values that contain [s] as a
    substring with the same letter case; whatever the options, every
    returned property's city matches the pattern; and with only the city
    [s] set (non-empty) and a limit [n] (a safe integer) at least the
    number of properties, a property with reviews is returned exactly
    when its city contains [s]. *)
Theorem getAllProperties_city_like_substring :
  (forall (s c : string), no_wildcards s = true ->
     (like_str ("%" ++ s ++ "%") c = true <-> exists pre post, c = pre ++ s ++ post)) /\
  (forall (o : options) (limit : jsval) (d d' : db) log rows p a,
     truthy (city o) = true ->
     getAllProperties _ db_run o limit d = (d', log, Resolved (ORows rows)) ->
     In (RProp p a) rows ->
     like_str ("%" ++ to_string (city o) ++ "%") (prop_city p) = true) /\
  (forall (s : string) (n : Z) (d : db),
     no_wildcards s = true -> s <> EmptyString -> (n <= 9007199254740991)%Z ->
     (Z.of_nat (length (db_properties d)) <= n)%Z ->
     exists rows,
       getAllProperties _ db_run (only_city (JStr s)) (JNum n) d
         = (d, [], Resolved (ORows rows)) /\
       forall p, In p (db_properties d) -> reviews_of d p <> [] ->
         (In (RProp p (average (reviews_of d p))) rows <->
          exists pre post, prop_city p = pre ++ s ++ post)).
Proof.
  split; [| split].
  - exact like_contains.
  - intros o limit d d' log rows p a T H Hin.
    exact (returned_row_city o limit d d' log rows p a H Hin T).
  - intros s n d W NE Rn L.
    assert (T : truthy (JStr s) = true)
      by (simpl; destruct (String.eqb_spec s EmptyString); [contradiction | reflexivity]).
    assert (Rn' : (0 <= n <= 9007199254740991)%Z) by lia.
    unfold getAllProperties; rewrite (build_only_city _ _ T); cbn [to_string].
    run_promise; unfold db_run at 1; rewrite parse_only_city.
    unfold exec_props; rewrite (bind_only_city _ _ Rn').
    eexists; split; [reflexivity |].
    intros p Hp Hr.
    unfold run_props; cbn [apply_limit bq_limit bq_having bq_conds].
    rewrite firstn_all2.
    + rewrite in_map_iff; split.
      * intros [[p' a'] [E Hin]]; cbn in E; injection E as E1 E2; subst p'.
        apply in_sort_by_cost, filter_In in Hin as [Hin _].
        apply in_groups_iff in Hin as [_ [F _]].
        cbn [forallb cond_holds] in F; rewrite andb_true_r in F.
        apply (like_contains s _ W); exact F.
      * intros C; exists (p, average (reviews_of d p)); split; [reflexivity |].
        apply (Permutation_in _ (Permutation_sym (sort_by_cost_perm _))), filter_In.
        split; [| reflexivity].
        apply in_groups_iff; repeat split; auto.
        cbn [forallb cond_holds]; rewrite (proj2 (like_contains s _ W) C); reflexivity.
    + rewrite (Permutation_length (sort_by_cost_perm _)).
      pose proof (length_groups d [BCity (Some ("%" ++ s ++ "%"))]).
      pose proof (filter_length_le (having_holds None) (groups d [BCity (Some ("%" ++ s ++ "%"))])).
      lia.
Qed.

Lemma getAllProperties_city_like_substring_witness :
  (no_wildcards "Van" = true /\
   (like_str ("%" ++ "Van" ++ "%") "Vancouver" = true <->
    exists pre post, "Vancouver" = pre ++ "Van" ++ post)) /\
  (truthy (city city_van) = true /\
   getAllProperties _ db_run city_van JUndef sample_db
     = (sample_db, [], Resolved (ORows [RProp vancouver_upper (7 # 2)])) /\
   like_str ("%" ++ to_string (city city_van) ++ "%") (prop_city vancouver_upper) = true) /\
  ("Van" <> EmptyString /\
   exists rows,
     getAllProperties _ db_run (only_city (JStr "Van")) (JNum 10) sample_db
       = (sample_db, [], Resolved (ORows rows)) /\
     (In (RProp vancouver_upper (average (reviews_of sample_db vancouver_upper))) rows <->
      exists pre post, prop_city vancouver_upper = pre ++ "Van" ++ post)).
Proof.
  assert (N : no_wildcards "Van" = true) by reflexivity.
  assert (T : truthy (city city_van) = true) by reflexivity.
  assert (H : getAllProperties _ db_run city_van JUndef sample_db
              = (sample_db, [], Resolved (ORows [RProp vancouver_upper (7 # 2)])))
    by (vm_compute; reflexivity).
  assert (NE : "Van" <> EmptyString) by discriminate.
  assert (L : (Z.of_nat (length (db_properties sample_db)) <= 10)%Z) by (simpl; lia).
  split.
  - split; [exact N |].
    exact (proj1 getAllProperties_city_like_substring "Van" "Vancouver" N).
  - split.
    + split; [exact T | split; [exact H |]].
      exact (proj1 (proj2 getAllProperties_city_like_substring) city_van JUndef sample_db
               sample_db [] _ _ _ T H (or_introl eq_refl)).
    + split; [exact NE |].
      destruct (proj2 (proj2 getAllProperties_city_like_substring) "Van" 10%Z sample_db
                  N NE ltac:(lia) L) as [rows [E C]].
      exists rows; split; [exact E |].
      apply C; [left; reflexivity | vm_compute; intros E'; discriminate E'].
Defined.

End EndToEnd.
